(** * Reading progress tracker: the book record reconciler

    A shallow embedding of [backend/models.py], [backend/schemas.py],
    [backend/crud.py] and the routes of [backend/main.py], and the
    properties of the reconciliation rules that keep [status],
    [current_page], [started_at] and [completed_at] of a book together.

    Conventions of the embedding.
    - Python [int] is [Z]; the [Float] rating, which is only stored and
      compared with 0 and 5, is a rational.
    - A [datetime] is a point on an integer time line.  A [datetime] object
      is always truthy, so [not db_book.started_at] tests for [None].
    - The table [books] is a finite map from the primary key to the row;
      [db.query(Book).filter(Book.id == book_id).first()] is a lookup.
    - Every function that calls [datetime.utcnow()] (or [datetime.now()])
      takes the clock reading as an argument; the readings taken within one
      call are identified.
    - [update_data], the dict that [model_dump(exclude_unset=True)] yields,
      is the record of the fields that were set, each with its value; a
      field sent as an explicit JSON [null] is outside the embedding, and
      so is the 500 with which the source answers such a body. *)

From Stdlib Require Import ZArith QArith String Floats.
From stdpp Require Import gmap strings list fin_maps sorting.

Local Open Scope string_scope.
Local Open Scope Z_scope.

Definition datetime : Type := Z.

(** ** models.py *)

Module Book.

Record t : Type := mk {
  id : Z;
  title : string;
  author : string;
  total_pages : Z;
  current_page : Z;
  status : string;
  cover_url : option string;
  genre : option string;
  notes : option string;
  rating : option Q;
  is_favorite : bool;
  started_at : option datetime;
  completed_at : option datetime;
  created_at : datetime;
  updated_at : datetime
}.

(** Attribute assignment, one function per column that the code writes. *)

Definition set_title (v : string) (b : t) : t :=
  mk (id b) v (author b) (total_pages b) (current_page b) (status b)
     (cover_url b) (genre b) (notes b) (rating b) (is_favorite b)
     (started_at b) (completed_at b) (created_at b) (updated_at b).

Definition set_author (v : string) (b : t) : t :=
  mk (id b) (title b) v (total_pages b) (current_page b) (status b)
     (cover_url b) (genre b) (notes b) (rating b) (is_favorite b)
     (started_at b) (completed_at b) (created_at b) (updated_at b).

Definition set_total_pages (v : Z) (b : t) : t :=
  mk (id b) (title b) (author b) v (current_page b) (status b)
     (cover_url b) (genre b) (notes b) (rating b) (is_favorite b)
     (started_at b) (completed_at b) (created_at b) (updated_at b).

Definition set_current_page (v : Z) (b : t) : t :=
  mk (id b) (title b) (author b) (total_pages b) v (status b)
     (cover_url b) (genre b) (notes b) (rating b) (is_favorite b)
     (started_at b) (completed_at b) (created_at b) (updated_at b).

Definition set_status (v : string) (b : t) : t :=
  mk (id b) (title b) (author b) (total_pages b) (current_page b) v
     (cover_url b) (genre b) (notes b) (rating b) (is_favorite b)
     (started_at b) (completed_at b) (created_at b) (updated_at b).

Definition set_cover_url (v : option string) (b : t) : t :=
  mk (id b) (title b) (author b) (total_pages b) (current_page b) (status b)
     v (genre b) (notes b) (rating b) (is_favorite b)
     (started_at b) (completed_at b) (created_at b) (updated_at b).

Definition set_genre (v : option string) (b : t) : t :=
  mk (id b) (title b) (author b) (total_pages b) (current_page b) (status b)
     (cover_url b) v (notes b) (rating b) (is_favorite b)
     (started_at b) (completed_at b) (created_at b) (updated_at b).

Definition set_notes (v : option string) (b : t) : t :=
  mk (id b) (title b) (author b) (total_pages b) (current_page b) (status b)
     (cover_url b) (genre b) v (rating b) (is_favorite b)
     (started_at b) (completed_at b) (created_at b) (updated_at b).

Definition set_rating (v : option Q) (b : t) : t :=
  mk (id b) (title b) (author b) (total_pages b) (current_page b) (status b)
     (cover_url b) (genre b) (notes b) v (is_favorite b)
     (started_at b) (completed_at b) (created_at b) (updated_at b).

Definition set_is_favorite (v : bool) (b : t) : t :=
  mk (id b) (title b) (author b) (total_pages b) (current_page b) (status b)
     (cover_url b) (genre b) (notes b) (rating b) v
     (started_at b) (completed_at b) (created_at b) (updated_at b).

Definition set_started_at (v : option datetime) (b : t) : t :=
  mk (id b) (title b) (author b) (total_pages b) (current_page b) (status b)
     (cover_url b) (genre b) (notes b) (rating b) (is_favorite b)
     v (completed_at b) (created_at b) (updated_at b).

Definition set_completed_at (v : option datetime) (b : t) : t :=
  mk (id b) (title b) (author b) (total_pages b) (current_page b) (status b)
     (cover_url b) (genre b) (notes b) (rating b) (is_favorite b)
     (started_at b) v (created_at b) (updated_at b).

Definition set_updated_at (v : datetime) (b : t) : t :=
  mk (id b) (title b) (author b) (total_pages b) (current_page b) (status b)
     (cover_url b) (genre b) (notes b) (rating b) (is_favorite b)
     (started_at b) (completed_at b) (created_at b) v.

(** [pages_remaining]: [max(0, self.total_pages - self.current_page)]. *)
Definition pages_remaining (b : t) : Z :=
  Z.max 0 (total_pages b - current_page b).

End Book.

(** The three status literals. *)
Definition not_started : string := "not_started".
Definition in_progress : string := "in_progress".
Definition completed : string := "completed".

(** ** schemas.py *)

Definition allowed_statuses : list string := [not_started; in_progress; completed].

(** [v not in allowed_statuses] raises [ValueError]; [validate_status] is
    the test that the value passes. *)
Definition validate_status (v : string) : bool :=
  existsb (String.eqb v) allowed_statuses.

(** [Field(..., min_length=lo, max_length=hi)] on a string. *)
Definition length_between (lo hi : nat) (s : string) : bool :=
  (lo <=? String.length s)%nat && (String.length s <=? hi)%nat.

(** A constraint on an [Optional] field holds of [None]. *)
Definition opt_ok {A : Type} (P : A → bool) (o : option A) : bool :=
  match o with
  | None => true
  | Some a => P a
  end.

Definition rating_ok (r : Q) : bool := Qle_bool 0 r && Qle_bool r 5.

Module BookCreate.

(** The fields of a request body; an absent optional field is [None]. *)
Record payload : Type := mk_payload {
  p_title : string;
  p_author : string;
  p_total_pages : Z;
  p_current_page : option Z;
  p_status : option string;
  p_cover_url : option string;
  p_genre : option string;
  p_notes : option string;
  p_rating : option Q;
  p_is_favorite : option bool
}.

(** The validated model, with the defaults of [BookBase] filled in. *)
Record t : Type := mk {
  title : string;
  author : string;
  total_pages : Z;
  current_page : Z;
  status : string;
  cover_url : option string;
  genre : option string;
  notes : option string;
  rating : option Q;
  is_favorite : bool
}.

(** The field constraints of [BookBase]; [validate_current_page] returns
    its argument unchanged and so adds nothing to [ge=0]. *)
Definition valid (m : t) : bool :=
  length_between 1 255 (title m)
  && length_between 1 255 (author m)
  && (0 <? total_pages m)
  && (0 <=? current_page m)
  && validate_status (status m)
  && opt_ok (length_between 0 500) (cover_url m)
  && opt_ok (length_between 0 100) (genre m)
  && opt_ok rating_ok (rating m).

(** Building the model from a body: defaults [current_page=0],
    [status="not_started"], [is_favorite=False]; [None] stands for the
    validation error. *)
Definition model_validate (p : payload) : option t :=
  let m := mk (p_title p) (p_author p) (p_total_pages p)
              (default 0 (p_current_page p))
              (default not_started (p_status p))
              (p_cover_url p) (p_genre p) (p_notes p) (p_rating p)
              (default false (p_is_favorite p)) in
  if valid m then Some m else None.

End BookCreate.

Module BookUpdate.

(** Every field is optional; [None] is a field that was not set, so the
    record is at the same time the dict [update_data].  A body can also set
    a field to JSON [null], which [model_dump(exclude_unset=True)] keeps
    as a key with value [None]: such bodies are not values of this type.
    (The source answers them with a 500: a [null] page raises at the
    comparison with 0, a [null] title, author or page count fails the NOT
    NULL constraint at commit, and a [null] status or favourite flag is
    committed and then fails the response model.) *)
Record t : Type := mk {
  title : option string;
  author : option string;
  total_pages : option Z;
  current_page : option Z;
  status : option string;
  cover_url : option string;
  genre : option string;
  notes : option string;
  rating : option Q;
  is_favorite : option bool
}.

Definition valid (m : t) : bool :=
  opt_ok (length_between 1 255) (title m)
  && opt_ok (length_between 1 255) (author m)
  && opt_ok (Z.ltb 0) (total_pages m)
  && opt_ok (Z.leb 0) (current_page m)
  && opt_ok validate_status (status m)
  && opt_ok (length_between 0 500) (cover_url m)
  && opt_ok (length_between 0 100) (genre m)
  && opt_ok rating_ok (rating m).

(** ["field" in update_data]. *)
Definition is_set {A : Type} (field : option A) : bool :=
  match field with
  | None => false
  | Some _ => true
  end.

(** The update that sets nothing. *)
Definition empty : t := mk None None None None None None None None None None.

End BookUpdate.

Module ProgressUpdate.

(** [current_page: int = Field(..., ge=0)], and a validator that rejects
    [v < 0] once more. *)
Definition valid (current_page : Z) : bool :=
  (0 <=? current_page) && negb (current_page <? 0).

End ProgressUpdate.

Module BookResponse.

(** [BookResponse] inherits the fields of [BookBase] with their
    constraints and its [validate_status]; this is what a stored book must
    satisfy to be serialised by a route with
    [response_model=schemas.BookResponse]. *)
Definition valid (b : Book.t) : bool :=
  length_between 1 255 (Book.title b)
  && length_between 1 255 (Book.author b)
  && (0 <? Book.total_pages b)
  && (0 <=? Book.current_page b)
  && validate_status (Book.status b)
  && opt_ok (length_between 0 500) (Book.cover_url b)
  && opt_ok (length_between 0 100) (Book.genre b)
  && opt_ok rating_ok (Book.rating b).

(** The constraints of [valid] on every field but the status. *)
Definition fields_valid (b : Book.t) : bool :=
  length_between 1 255 (Book.title b)
  && length_between 1 255 (Book.author b)
  && (0 <? Book.total_pages b)
  && (0 <=? Book.current_page b)
  && opt_ok (length_between 0 500) (Book.cover_url b)
  && opt_ok (length_between 0 100) (Book.genre b)
  && opt_ok rating_ok (Book.rating b).

End BookResponse.

Module BookStats.

Record t : Type := mk {
  total_books : Z;
  books_in_progress : Z;
  books_completed : Z;
  books_not_started : Z;
  total_pages_read : Z;
  average_progress : float
}.

End BookStats.

(** ** crud.py *)

(** Truth value of an optional [datetime]: only [None] is false. *)
Definition truthy {A : Type} (o : option A) : bool :=
  match o with
  | None => false
  | Some _ => true
  end.

(** The session: the rows of the table [books], by primary key. *)
Abbreviation Session := (gmap Z Book.t).

Module crud.

(** The key that the engine gives to an inserted row: one more than the
    largest key in use (the rule of an integer primary key in SQLite),
    and 1 in an empty table. *)
Definition next_id (db : Session) : Z :=
  Z.succ (map_fold (λ k _ acc, Z.max k acc) 0 db).

(** [db.add(db_book); db.commit(); db.refresh(db_book)]: the row is written
    under its key. *)
Definition commit (db : Session) (key : Z) (db_book : Book.t) : Session :=
  <[key := db_book]> db.

Definition create_book (db : Session) (book : BookCreate.t)
    (now utcnow : datetime) : Session * Book.t :=
  (* the Book built from book.model_dump(); the key and the defaults of
     created_at and updated_at are those that the INSERT fills in *)
  let db_book :=
    Book.mk (next_id db)
      (BookCreate.title book) (BookCreate.author book)
      (BookCreate.total_pages book) (BookCreate.current_page book)
      (BookCreate.status book) (BookCreate.cover_url book)
      (BookCreate.genre book) (BookCreate.notes book)
      (BookCreate.rating book) (BookCreate.is_favorite book)
      None None utcnow utcnow in
  (* Set started_at if status is in_progress *)
  let db_book :=
    if (Book.status db_book =? in_progress)%string
       && negb (truthy (Book.started_at db_book))
    then Book.set_started_at (Some now) db_book
    else db_book in
  (* Set completed_at if status is completed *)
  let db_book :=
    if (Book.status db_book =? completed)%string
       && negb (truthy (Book.completed_at db_book))
    then Book.set_current_page (Book.total_pages db_book)
           (Book.set_completed_at (Some now) db_book)
    else db_book in
  (commit db (Book.id db_book) db_book, db_book).

Definition get_book (db : Session) (book_id : Z) : option Book.t :=
  db !! book_id.

(** The first block of [update_book]: "Handle status changes". *)
Definition handle_status_changes (update_data : BookUpdate.t)
    (utcnow : datetime) (db_book : Book.t) : Book.t :=
  match BookUpdate.status update_data with
  | None => db_book
  | Some new_status =>
      (* Set started_at when moving to in_progress *)
      let db_book :=
        if (new_status =? in_progress)%string
           && negb (Book.status db_book =? in_progress)%string
        then
          if truthy (Book.started_at db_book) then db_book
          else Book.set_started_at (Some utcnow) db_book
        else db_book in
      (* Set completed_at when moving to completed *)
      if (new_status =? completed)%string
         && negb (Book.status db_book =? completed)%string
      then
        let db_book := Book.set_completed_at (Some utcnow) db_book in
        (* Ensure current_page is set to total_pages *)
        match BookUpdate.current_page update_data with
        | None => Book.set_current_page (Book.total_pages db_book) db_book
        | Some _ => db_book
        end
      else db_book
  end.

(** The second block: "Handle current_page changes to auto-update status". *)
Definition handle_current_page_changes (update_data : BookUpdate.t)
    (utcnow : datetime) (db_book : Book.t) : Book.t :=
  match BookUpdate.current_page update_data with
  | None => db_book
  | Some current_page =>
      let total_pages :=
        default (Book.total_pages db_book) (BookUpdate.total_pages update_data) in
      let status_not_in_update_data :=
        negb (BookUpdate.is_set (BookUpdate.status update_data)) in
      if (current_page =? 0) && status_not_in_update_data then
        Book.set_status not_started db_book
      else if (0 <? current_page) && (current_page <? total_pages)
              && status_not_in_update_data then
        let db_book := Book.set_status in_progress db_book in
        if truthy (Book.started_at db_book) then db_book
        else Book.set_started_at (Some utcnow) db_book
      else if (total_pages <=? current_page) && status_not_in_update_data then
        let db_book := Book.set_status completed db_book in
        if truthy (Book.completed_at db_book) then db_book
        else Book.set_completed_at (Some utcnow) db_book
      else db_book
  end.

(** [setattr(db_book, field, value)] for a field that may be absent. *)
Definition setattr_opt {A : Type} (set : A → Book.t → Book.t)
    (value : option A) (db_book : Book.t) : Book.t :=
  match value with
  | None => db_book
  | Some v => set v db_book
  end.

(** The third block: "Update all fields from update_data", in the order of
    the fields of the model. *)
Definition update_all_fields (update_data : BookUpdate.t)
    (db_book : Book.t) : Book.t :=
  let db_book := setattr_opt Book.set_title (BookUpdate.title update_data) db_book in
  let db_book := setattr_opt Book.set_author (BookUpdate.author update_data) db_book in
  let db_book := setattr_opt Book.set_total_pages (BookUpdate.total_pages update_data) db_book in
  let db_book := setattr_opt Book.set_current_page (BookUpdate.current_page update_data) db_book in
  let db_book := setattr_opt Book.set_status (BookUpdate.status update_data) db_book in
  let db_book := setattr_opt Book.set_cover_url (Some <$> BookUpdate.cover_url update_data) db_book in
  let db_book := setattr_opt Book.set_genre (Some <$> BookUpdate.genre update_data) db_book in
  let db_book := setattr_opt Book.set_notes (Some <$> BookUpdate.notes update_data) db_book in
  let db_book := setattr_opt Book.set_rating (Some <$> BookUpdate.rating update_data) db_book in
  setattr_opt Book.set_is_favorite (BookUpdate.is_favorite update_data) db_book.

Definition update_book (db : Session) (book_id : Z)
    (book_update : BookUpdate.t) (utcnow : datetime)
    : Session * option Book.t :=
  match get_book db book_id with
  | None => (db, None)
  | Some db_book =>
      let update_data := book_update in
      let db_book := handle_status_changes update_data utcnow db_book in
      let db_book := handle_current_page_changes update_data utcnow db_book in
      let db_book := update_all_fields update_data db_book in
      let db_book := Book.set_updated_at utcnow db_book in
      (commit db book_id db_book, Some db_book)
  end.

Definition update_book_progress (db : Session) (book_id : Z)
    (current_page : Z) (utcnow : datetime) : Session * option Book.t :=
  match get_book db book_id with
  | None => (db, None)
  | Some db_book =>
      (* Ensure current_page doesn't exceed total_pages *)
      let current_page := Z.min current_page (Book.total_pages db_book) in
      let db_book := Book.set_current_page current_page db_book in
      (* Auto-update status based on progress *)
      let db_book :=
        if current_page =? 0 then
          Book.set_completed_at None
            (Book.set_started_at None (Book.set_status not_started db_book))
        else if current_page <? Book.total_pages db_book then
          let db_book := Book.set_status in_progress db_book in
          let db_book :=
            if truthy (Book.started_at db_book) then db_book
            else Book.set_started_at (Some utcnow) db_book in
          Book.set_completed_at None db_book
        else
          let db_book := Book.set_status completed db_book in
          let db_book :=
            if truthy (Book.started_at db_book) then db_book
            else Book.set_started_at (Some utcnow) db_book in
          if truthy (Book.completed_at db_book) then db_book
          else Book.set_completed_at (Some utcnow) db_book in
      let db_book := Book.set_updated_at utcnow db_book in
      (commit db book_id db_book, Some db_book)
  end.

Definition update_book_notes (db : Session) (book_id : Z) (notes : string)
    (utcnow : datetime) : Session * option Book.t :=
  match get_book db book_id with
  | None => (db, None)
  | Some db_book =>
      let db_book := Book.set_notes (Some notes) db_book in
      let db_book := Book.set_updated_at utcnow db_book in
      (commit db book_id db_book, Some db_book)
  end.

Definition delete_book (db : Session) (book_id : Z) : Session * bool :=
  match get_book db book_id with
  | None => (db, false)
  | Some _ => (delete book_id db, true)
  end.

(** *** Statistics *)

(** The rows of the table, in the order in which the map lists them; the
    counts and the integer sum below do not depend on it. *)
Definition rows (db : Session) : list Book.t := (map_to_list db).*2.

(** [func.count(Book.id)] over the rows that [keep] selects. *)
Definition count (keep : Book.t → bool) (db : Session) : Z :=
  Z.of_nat (length (filter (λ b, keep b = true) (rows db))).

(** The dict of [GROUP BY status] read with [.get(status, 0)]: a status
    without rows has no group and counts 0. *)
Definition status_count (status : string) (db : Session) : Z :=
  count (λ b, (Book.status b =? status)%string) db.

(** [func.sum(column)]: NULL, that is [None], over no rows. *)
Definition sum_int (column : Book.t → Z) (db : Session) : option Z :=
  match rows db with
  | [] => None
  | l => Some (foldr Z.add 0 (column <$> l))
  end.

(** An integer as a double, as the engine and Python convert it (for the
    63-bit range, which holds every page count). *)
Definition float_of_int (z : Z) : float :=
  if z <? 0 then PrimFloat.opp (PrimFloat.of_uint63 (Uint63.of_Z (- z)))
  else PrimFloat.of_uint63 (Uint63.of_Z z).

(** The progress of one row in per cent: the [case] expression under the
    sum of [get_reading_stats]. *)
Definition progress_case (b : Book.t) : float :=
  if 0 <? Book.total_pages b
  then PrimFloat.div
         (PrimFloat.mul (float_of_int (Book.current_page b)) 100%float)
         (float_of_int (Book.total_pages b))
  else 0%float.

Section engine.

(** The sum of a column of doubles is computed by the database engine, in
    an order and with a summation method of its choice, and [round] is
    the built-in of Python: both are parameters here.  [sql_sum] is given
    the values of the rows and answers [None] for NULL. *)
Context (sql_sum : list float → option float) (round : float → Z → float).

Definition get_reading_stats (db : Session) : BookStats.t :=
  let total_books := count (λ _, true) db in
  (* Count books by status *)
  let books_not_started := status_count not_started db in
  let books_in_progress := status_count in_progress db in
  let books_completed := status_count completed db in
  (* Calculate total pages read *)
  let total_pages_read := default 0 (sum_int Book.current_page db) in
  (* Calculate average progress *)
  let average_progress :=
    if 0 <? total_books then
      let total_progress :=
        match sql_sum (progress_case <$> rows db) with
        | None => 0%float
        | Some x => if PrimFloat.eqb x 0%float then 0%float else x
        end in
      round (PrimFloat.div total_progress (float_of_int total_books)) 2
    else 0%float in
  BookStats.mk total_books books_in_progress books_completed
    books_not_started total_pages_read average_progress.

End engine.

(** *** Queries *)

(** [if status:] on an optional string: [None] and the empty string are
    false. *)
Definition given (o : option string) : option string :=
  match o with
  | Some s => if (s =? "")%string then None else Some s
  | None => None
  end.

(** [.offset(skip)] and [.limit(limit)] as SQLite reads them: a negative
    offset is 0 and a negative limit is no limit. *)
Definition offset (skip : Z) (query : list Book.t) : list Book.t :=
  drop (Z.to_nat skip) query.

Definition limit (n : Z) (query : list Book.t) : list Book.t :=
  if n <? 0 then query else take (Z.to_nat n) query.

Section query.

(** [ilike value pattern] is the case-insensitive LIKE of the engine, and
    [order_by_updated_at_desc] its ORDER BY on [updated_at], descending:
    both are parameters.  What the theorems ask of the latter is
    [sorts_newest_first] below. *)
Context (ilike : string → string → bool)
        (order_by_updated_at_desc : list Book.t → list Book.t).

Definition get_books (db : Session) (skip n : Z)
    (status search : option string) : list Book.t :=
  let query := rows db in
  (* Filter by status if provided *)
  let query :=
    match given status with
    | Some status => filter (λ b, Book.status b = status) query
    | None => query
    end in
  (* Search in title and author if search term provided *)
  let query :=
    match given search with
    | Some search =>
        let search_filter := ("%" ++ search ++ "%")%string in
        filter (λ b, ilike (Book.title b) search_filter
                     || ilike (Book.author b) search_filter = true) query
    | None => query
    end in
  (* Order by updated_at descending (most recently updated first) *)
  let query := order_by_updated_at_desc query in
  limit n (offset skip query).

Definition get_favorite_books (db : Session) : list Book.t :=
  order_by_updated_at_desc
    (filter (λ b, Book.is_favorite b = true) (rows db)).

End query.

End crud.

(** ** main.py *)

Module main.

(** What a route answers: the value of a 2xx response, the 404 that
    [HTTPException(status_code=404, detail="Book not found")] raises, or
    the 422 of a body that fails the validation of its schema.  The 500 of
    an unhandled exception arises only from bodies that set a field to
    [null], which are outside the embedding, and has no constructor. *)
Inductive response (A : Type) : Type :=
| Ok (a : A)
| NotFound
| InvalidInput.

Arguments Ok {A} a.
Arguments NotFound {A}.
Arguments InvalidInput {A}.

(** [if db_book is None: raise HTTPException(404)], else the book. *)
Definition or_404 {A : Type} (r : Session * option A) : Session * response A :=
  match r with
  | (db, None) => (db, NotFound)
  | (db, Some a) => (db, Ok a)
  end.

Definition create_book (db : Session) (body : BookCreate.payload)
    (now utcnow : datetime) : Session * response Book.t :=
  match BookCreate.model_validate body with
  | None => (db, InvalidInput)
  | Some book =>
      let r := crud.create_book db book now utcnow in
      (r.1, Ok r.2)
  end.

Definition get_book (db : Session) (book_id : Z) : Session * response Book.t :=
  or_404 (db, crud.get_book db book_id).

Definition update_book (db : Session) (book_id : Z)
    (book_update : BookUpdate.t) (utcnow : datetime)
    : Session * response Book.t :=
  if BookUpdate.valid book_update
  then or_404 (crud.update_book db book_id book_update utcnow)
  else (db, InvalidInput).

Definition update_book_progress (db : Session) (book_id : Z)
    (current_page : Z) (utcnow : datetime) : Session * response Book.t :=
  if ProgressUpdate.valid current_page
  then or_404 (crud.update_book_progress db book_id current_page utcnow)
  else (db, InvalidInput).

Definition delete_book (db : Session) (book_id : Z) : Session * response unit :=
  let r := crud.delete_book db book_id in
  if r.2 then (r.1, Ok tt) else (r.1, NotFound).

(** [skip: int = Query(0, ge=0)] and [limit: int = Query(100, ge=1,
    le=100)]: an absent parameter takes its default. *)
Definition get_books (ilike : string → string → bool)
    (order_by_updated_at_desc : list Book.t → list Book.t)
    (db : Session) (skip limit : option Z) (status search : option string)
    : Session * response (list Book.t) :=
  let skip := default 0 skip in
  let limit := default 100 limit in
  if (0 <=? skip) && (1 <=? limit) && (limit <=? 100)
  then (db, Ok (crud.get_books ilike order_by_updated_at_desc db skip limit
                  status search))
  else (db, InvalidInput).

Definition get_favorite_books
    (order_by_updated_at_desc : list Book.t → list Book.t) (db : Session)
    : Session * response (list Book.t) :=
  (db, Ok (crud.get_favorite_books order_by_updated_at_desc db)).

Definition get_stats (sql_sum : list float → option float)
    (round : float → Z → float) (db : Session)
    : Session * response BookStats.t :=
  (db, Ok (crud.get_reading_stats sql_sum round db)).

(** The status code of an answer, [success] being the code of the route
    decorator. *)
Definition status_code {A : Type} (success : Z) (r : response A) : Z :=
  match r with
  | Ok _ => success
  | NotFound => 404
  | InvalidInput => 422
  end.

End main.

(** ** The reconciler operations

    The four mutations of a book, each one a function of [crud]:
    Create is [create_book], GeneralUpdate is [update_book], ProgressUpdate
    is [update_book_progress] and NotesUpdate is [update_book_notes]. *)

Inductive operation : Type :=
| Create (book : BookCreate.t) (now : datetime)
| GeneralUpdate (book_id : Z) (partial_fields : BookUpdate.t)
| ProgressUpdate (book_id : Z) (requested_page : Z)
| NotesUpdate (book_id : Z) (text : string).

(** Running an operation at clock reading [utcnow]: the next session and
    the resulting book, [None] when the id names no row. *)
Definition reconcile (op : operation) (db : Session) (utcnow : datetime)
    : Session * option Book.t :=
  match op with
  | Create book now =>
      let r := crud.create_book db book now utcnow in (r.1, Some r.2)
  | GeneralUpdate book_id partial_fields =>
      crud.update_book db book_id partial_fields utcnow
  | ProgressUpdate book_id requested_page =>
      crud.update_book_progress db book_id requested_page utcnow
  | NotesUpdate book_id text =>
      crud.update_book_notes db book_id text utcnow
  end.

(** The page invariant of the data model. *)
Definition page_in_range (b : Book.t) : Prop :=
  0 <= Book.current_page b <= Book.total_pages b.

(** [completed_at] agrees with the page: it is unset while the page is
    below the total. *)
Definition below_total_unset (b : Book.t) : Prop :=
  Book.current_page b < Book.total_pages b → Book.completed_at b = None.

(** The steps after which [completed_at] is known to agree with the page:
    Create and ProgressUpdate recompute it, whatever the session holds;
    NotesUpdate leaves it, so the row it names must agree beforehand;
    GeneralUpdate is not among them. *)
Definition reconciles_completed_at (op : operation) (db : Session) : Prop :=
  match op with
  | Create _ _ | ProgressUpdate _ _ => True
  | NotesUpdate book_id _ =>
      ∀ b, db !! book_id = Some b → below_total_unset b
  | GeneralUpdate _ _ => False
  end.

(** What validation guarantees of every stored row: it sits under its own
    id, has a positive page count, and its status is one of the three
    literals. *)
Definition Session_ok (db : Session) : Prop :=
  ∀ (k : Z) (b : Book.t),
    db !! k = Some b →
    Book.id b = k
    ∧ 0 < Book.total_pages b
    ∧ validate_status (Book.status b) = true.

(** ** Requests

    The mutating routes of [main.py], as data, and the session that a
    sequence of requests, each with its clock readings, leaves behind. *)

Inductive request : Type :=
| PostBook (body : BookCreate.payload) (now : datetime)
| PutBook (book_id : Z) (book_update : BookUpdate.t)
| PatchProgress (book_id : Z) (current_page : Z)
| DeleteBook (book_id : Z).

Definition serve (db : Session) (req : request) (utcnow : datetime)
    : Session :=
  match req with
  | PostBook body now => (main.create_book db body now utcnow).1
  | PutBook book_id book_update =>
      (main.update_book db book_id book_update utcnow).1
  | PatchProgress book_id current_page =>
      (main.update_book_progress db book_id current_page utcnow).1
  | DeleteBook book_id => (main.delete_book db book_id).1
  end.

Fixpoint serve_all (db : Session) (reqs : list (request * datetime))
    : Session :=
  match reqs with
  | [] => db
  | (req, utcnow) :: rest => serve_all (serve db req utcnow) rest
  end.

(** The status code that a request is answered with: 201 for a created
    book, 204 for a deletion, 200 for the updates. *)
Definition serve_status (db : Session) (req : request) (utcnow : datetime)
    : Z :=
  match req with
  | PostBook body now =>
      main.status_code 201 (main.create_book db body now utcnow).2
  | PutBook book_id book_update =>
      main.status_code 200 (main.update_book db book_id book_update utcnow).2
  | PatchProgress book_id current_page =>
      main.status_code 200
        (main.update_book_progress db book_id current_page utcnow).2
  | DeleteBook book_id => main.status_code 204 (main.delete_book db book_id).2
  end.

(** The key of the row that a request may write: the one it names, or the
    next free key for a new book. *)
Definition target (db : Session) (req : request) : Z :=
  match req with
  | PostBook _ _ => crud.next_id db
  | PutBook book_id _ | PatchProgress book_id _ | DeleteBook book_id => book_id
  end.

(** ** The order of a listing *)

(** [newest_first a b]: [a] may stand before [b] in a listing by
    [updated_at], descending. *)
Definition newest_first : relation Book.t :=
  λ a b, Book.updated_at b <= Book.updated_at a.

(** What ORDER BY guarantees: the same rows, in order. *)
Definition sorts_newest_first (order : list Book.t → list Book.t) : Prop :=
  ∀ l, order l ≡ₚ l ∧ StronglySorted newest_first (order l).

#[global] Instance newest_first_dec : RelDecision newest_first :=
  λ a b, Z_le_dec (Book.updated_at b) (Book.updated_at a).

(** One such order, by merge sort. *)
Definition merge_newest_first (l : list Book.t) : list Book.t :=
  merge_sort newest_first l.

(** A stand-in for the LIKE of the engine: the pattern is the value
    between two [%]. *)
Definition exact_ilike (value pattern : string) : bool :=
  (("%" ++ value ++ "%") =? pattern)%string.

(** A row from which no page is left to read. *)
Definition fully_read (b : Book.t) : Prop := Book.pages_remaining b = 0.

(** ** Sample data *)

(** A book of 100 pages, page 10 reached, in progress since time 5. *)
Definition sample_book : Book.t :=
  Book.mk 1 "Dune" "Herbert" 100 10 in_progress None None None None false
    (Some 5) None 1 5.

(** The same book read to the end at time 7. *)
Definition sample_completed : Book.t :=
  Book.mk 1 "Dune" "Herbert" 100 100 completed None None None None false
    (Some 5) (Some 7) 1 7.

Definition sample_db : Session := {[ 1 := sample_book ]}.
Definition sample_completed_db : Session := {[ 1 := sample_completed ]}.

(** Update bodies. *)
Definition only_current_page (p : Z) : BookUpdate.t :=
  BookUpdate.mk None None None (Some p) None None None None None None.

Definition only_status (s : string) : BookUpdate.t :=
  BookUpdate.mk None None None None (Some s) None None None None None.

Definition status_and_current_page (s : string) (p : Z) : BookUpdate.t :=
  BookUpdate.mk None None None (Some p) (Some s) None None None None None.

Definition status_and_total_pages (s : string) (n : Z) : BookUpdate.t :=
  BookUpdate.mk None None (Some n) None (Some s) None None None None None.

(** A creation body that names a page but no status. *)
Definition sample_payload : BookCreate.payload :=
  BookCreate.mk_payload "Emma" "Austen" 200 (Some 50) None None None None
    None None.

(** [sample_book] after the update [only_current_page 150] at time 9. *)
Definition sample_overshoot : Book.t :=
  Book.mk 1 "Dune" "Herbert" 100 150 completed None None None None false
    (Some 5) (Some 9) 1 9.

(** [sample_completed] after [status_and_current_page completed 50] at
    time 9. *)
Definition sample_regressed : Book.t :=
  Book.mk 1 "Dune" "Herbert" 100 50 completed None None None None false
    (Some 5) (Some 7) 1 9.

(** [sample_book] after [status_and_total_pages completed 200] at time 9. *)
Definition sample_stale_total : Book.t :=
  Book.mk 1 "Dune" "Herbert" 200 100 completed None None None None false
    (Some 5) (Some 9) 1 9.

(** [sample_completed] after the progress update to page 50 at time 9. *)
Definition sample_reopened : Book.t :=
  Book.mk 1 "Dune" "Herbert" 100 50 in_progress None None None None false
    (Some 5) None 1 9.

(** The scenario of a new book of 500 pages, created at time 1, read to
    the end at time 2 and reset to page 0 at time 3. *)
Definition dune_requests : list (request * datetime) :=
  [ (PostBook (BookCreate.mk_payload "Dune" "Herbert" 500 None None None
                 None None None None) 1, 1);
    (PatchProgress 1 500, 2);
    (PatchProgress 1 0, 3) ].

(** A second book, a favourite, finished at time 8. *)
Definition sample_favorite : Book.t :=
  Book.mk 2 "Emma" "Austen" 200 200 completed None None None None true
    (Some 6) (Some 8) 2 8.

(** A shelf of two books. *)
Definition sample_shelf : Session :=
  {[ 1 := sample_book; 2 := sample_favorite ]}.

(** An update body that sets nothing but a status and a title. *)
Definition status_and_title (s title : string) : BookUpdate.t :=
  BookUpdate.mk (Some title) None None None (Some s) None None None None None.

(** An update body that sets nothing but the notes. *)
Definition only_notes (text : string) : BookUpdate.t :=
  BookUpdate.mk None None None None None None None (Some text) None None.

(** * Properties *)

(** ** Tactics and basic facts *)

(** Case analysis on every integer comparison of the goal. *)
Ltac zcases :=
  repeat match goal with
  | |- context [ (?a =? ?b)%Z ] => destruct (Z.eqb_spec a b)
  | |- context [ (?a <? ?b)%Z ] => destruct (Z.ltb_spec a b)
  | |- context [ (?a <=? ?b)%Z ] => destruct (Z.leb_spec a b)
  end.

(** The same, one comparison at a time. *)
Ltac zcase :=
  match goal with
  | |- context [ (?a =? ?b)%Z ] => destruct (Z.eqb_spec a b)
  | |- context [ (?a <? ?b)%Z ] => destruct (Z.ltb_spec a b)
  | |- context [ (?a <=? ?b)%Z ] => destruct (Z.leb_spec a b)
  end.

(** Unfold an operation of [crud] at a row that is known to exist or not. *)
Ltac crud_lookup H :=
  unfold crud.update_book, crud.update_book_progress, crud.update_book_notes,
    crud.delete_book, crud.get_book, crud.commit;
  rewrite ?H.

Lemma status_literals_distinct :
  not_started ≠ in_progress ∧ not_started ≠ completed ∧ in_progress ≠ completed.
Proof. repeat split; discriminate. Qed.

Lemma validate_status_spec (v : string) :
  validate_status v = true ↔ v = not_started ∨ v = in_progress ∨ v = completed.
Proof.
  unfold validate_status, allowed_statuses. simpl.
  rewrite !orb_true_iff, !String.eqb_eq. intuition congruence.
Qed.

(** ** ProgressUpdate *)

Section progress.

Context (db : Session) (book_id : Z) (utcnow : datetime).

(** What [update_book_progress] does to the row it finds, field by field. *)
Lemma update_book_progress_found (b : Book.t) (p : Z) :
  db !! book_id = Some b →
  let page := Z.min p (Book.total_pages b) in
  ∃ b',
    crud.update_book_progress db book_id p utcnow
      = (<[book_id := b']> db, Some b')
    ∧ Book.current_page b' = page
    ∧ Book.total_pages b' = Book.total_pages b
    ∧ Book.updated_at b' = utcnow
    ∧ (page = 0 →
         Book.status b' = not_started
         ∧ Book.started_at b' = None ∧ Book.completed_at b' = None)
    ∧ (page ≠ 0 → page < Book.total_pages b →
         Book.status b' = in_progress
         ∧ Book.started_at b' = Some (default utcnow (Book.started_at b))
         ∧ Book.completed_at b' = None)
    ∧ (page ≠ 0 → Book.total_pages b <= page →
         Book.status b' = completed
         ∧ Book.started_at b' = Some (default utcnow (Book.started_at b))
         ∧ Book.completed_at b' = Some (default utcnow (Book.completed_at b))).
Proof.
  intros Hb page. crud_lookup Hb. fold page.
  eexists. split; [reflexivity|].
  destruct b as [? ? ? total ? ? ? ? ? ? ? started finished ? ?].
  simpl in *. repeat split; zcases; try lia; simpl;
    destruct started, finished; reflexivity.
Qed.

End progress.

(** Claim C4.  For an existing book, whatever its timestamps were,
    ProgressUpdate with page 0 yields status [not_started] with
    [started_at] and [completed_at] both cleared.  The page count of a
    stored book is not negative ([total_pages] is validated [gt=0] on every
    write). *)
Theorem update_book_progress_zero_resets
    (db : Session) (book_id : Z) (b : Book.t) (utcnow : datetime) :
  db !! book_id = Some b →
  0 <= Book.total_pages b →
  ∃ b',
    crud.update_book_progress db book_id 0 utcnow
      = (<[book_id := b']> db, Some b')
    ∧ Book.current_page b' = 0
    ∧ Book.status b' = not_started
    ∧ Book.started_at b' = None
    ∧ Book.completed_at b' = None.
Proof.
  intros Hb Htotal.
  destruct (update_book_progress_found db book_id utcnow b 0 Hb)
    as (b' & Hrun & Hpage & _ & _ & Hzero & _).
  rewrite Z.min_l in Hpage, Hzero by lia.
  exists b'. destruct Hzero as (? & ? & ?); auto.
Qed.

Lemma update_book_progress_zero_resets_witness :
  sample_completed_db !! 1 = Some sample_completed
  ∧ 0 <= Book.total_pages sample_completed
  ∧ ∃ b',
      crud.update_book_progress sample_completed_db 1 0 9
        = (<[1 := b']> sample_completed_db, Some b')
      ∧ Book.current_page b' = 0
      ∧ Book.status b' = not_started
      ∧ Book.started_at b' = None
      ∧ Book.completed_at b' = None.
Proof.
  split; [reflexivity|]. split; [simpl; lia|].
  apply (update_book_progress_zero_resets sample_completed_db 1 sample_completed 9);
    [reflexivity | simpl; lia].
Defined.

(** Claim C5.  For an existing book and a requested page that passed the
    validation of the [ProgressUpdate] schema ([ge=0]), ProgressUpdate
    stores the page clamped to [[0, total_pages]] and answers with the book,
    never with an error, however far the page overshoots.  A page at or
    beyond [total_pages] yields status [completed] with
    [current_page = total_pages] and both timestamps set: each keeps its
    value if it had one and is set to the clock reading otherwise. *)
Theorem update_book_progress_clamps
    (db : Session) (book_id : Z) (b : Book.t) (p : Z) (utcnow : datetime) :
  db !! book_id = Some b →
  0 < Book.total_pages b →
  0 <= p →
  ∃ b',
    crud.update_book_progress db book_id p utcnow
      = (<[book_id := b']> db, Some b')
    ∧ main.update_book_progress db book_id p utcnow
      = (<[book_id := b']> db, main.Ok b')
    ∧ Book.current_page b' = Z.max 0 (Z.min p (Book.total_pages b))
    ∧ 0 <= Book.current_page b' <= Book.total_pages b'
    ∧ (Book.total_pages b <= p →
         Book.status b' = completed
         ∧ Book.current_page b' = Book.total_pages b'
         ∧ Book.started_at b' = Some (default utcnow (Book.started_at b))
         ∧ Book.completed_at b' = Some (default utcnow (Book.completed_at b))).
Proof.
  intros Hb Htotal Hp.
  destruct (update_book_progress_found db book_id utcnow b p Hb)
    as (b' & Hrun & Hpage & Htot & _ & _ & _ & Hfull).
  exists b'. split; [exact Hrun|]. split.
  { unfold main.update_book_progress, ProgressUpdate.valid.
    rewrite Hrun. zcases; try lia. reflexivity. }
  split; [lia|]. split; [lia|].
  intros Hover. rewrite Z.min_r in Hpage, Hfull by lia.
  destruct Hfull as (? & ? & ?); [lia | lia |].
  repeat split; congruence.
Qed.

Lemma update_book_progress_clamps_witness :
  sample_db !! 1 = Some sample_book
  ∧ 0 < Book.total_pages sample_book
  ∧ 0 <= 150
  ∧ ∃ b',
      crud.update_book_progress sample_db 1 150 9
        = (<[1 := b']> sample_db, Some b')
      ∧ main.update_book_progress sample_db 1 150 9
        = (<[1 := b']> sample_db, main.Ok b')
      ∧ Book.current_page b' = Z.max 0 (Z.min 150 (Book.total_pages sample_book))
      ∧ 0 <= Book.current_page b' <= Book.total_pages b'
      ∧ (Book.total_pages sample_book <= 150 →
           Book.status b' = completed
           ∧ Book.current_page b' = Book.total_pages b'
           ∧ Book.started_at b' = Some (default 9 (Book.started_at sample_book))
           ∧ Book.completed_at b' = Some (default 9 (Book.completed_at sample_book))).
Proof.
  split; [reflexivity|]. split; [simpl; lia|]. split; [lia|].
  apply (update_book_progress_clamps sample_db 1 sample_book 150 9);
    [reflexivity | simpl; lia | lia].
Defined.

(** Claim C6.  Applying ProgressUpdate with the same page twice in a row
    gives the state that one application gives, except for [updated_at]:
    the second call answers with the book of the first call in which only
    [updated_at] is replaced by the second clock reading, and stores
    exactly that row.  (For an absent id both calls answer [None] and
    leave the session as it is.) *)
Theorem update_book_progress_idempotent
    (db : Session) (book_id : Z) (p : Z) (t1 t2 : datetime) :
  let once := crud.update_book_progress db book_id p t1 in
  let twice := crud.update_book_progress once.1 book_id p t2 in
  twice.2 = Book.set_updated_at t2 <$> once.2
  ∧ twice.1 = match once.2 with
              | Some b1 => <[book_id := Book.set_updated_at t2 b1]> once.1
              | None => once.1
              end.
Proof.
  destruct (db !! book_id) as [b|] eqn:Hb; simpl.
  - crud_lookup Hb. simpl. crud_lookup (lookup_insert_eq db book_id).
    rewrite !insert_insert_eq.
    destruct b as [? ? ? total ? ? ? ? ? ? ? started finished ? ?].
    destruct started, finished;
      repeat (progress simpl || zcase);
      try (exfalso; simpl in *; lia); split; reflexivity.
  - crud_lookup Hb. simpl. crud_lookup Hb. split; reflexivity.
Qed.

(** ** GeneralUpdate *)

Section general_update.

(** A projection of a book after an optional [setattr] of another field, and
    of the same field. *)

Lemma setattr_opt_other {A B : Type} (get : Book.t → B)
    (set : A → Book.t → Book.t) (value : option A) (b : Book.t) :
  (∀ v b0, get (set v b0) = get b0) →
  get (crud.setattr_opt set value b) = get b.
Proof. intros Hset. destruct value; simpl; auto. Qed.

Lemma setattr_opt_same {A : Type} (get : Book.t → A)
    (set : A → Book.t → Book.t) (value : option A) (b : Book.t) :
  (∀ v b0, get (set v b0) = v) →
  get (crud.setattr_opt set value b) = default (get b) value.
Proof. intros Hset. destruct value; simpl; auto. Qed.

(** Read [get] through the ten assignments of [update_all_fields]. *)
Ltac frame get :=
  unfold crud.update_all_fields;
  repeat first
    [ rewrite (setattr_opt_other get) by reflexivity
    | rewrite (setattr_opt_same get) by reflexivity ];
  try reflexivity.

Lemma update_all_fields_current_page (u : BookUpdate.t) (b : Book.t) :
  Book.current_page (crud.update_all_fields u b)
  = default (Book.current_page b) (BookUpdate.current_page u).
Proof. frame Book.current_page. Qed.

Lemma update_all_fields_total_pages (u : BookUpdate.t) (b : Book.t) :
  Book.total_pages (crud.update_all_fields u b)
  = default (Book.total_pages b) (BookUpdate.total_pages u).
Proof. frame Book.total_pages. Qed.

Lemma update_all_fields_status (u : BookUpdate.t) (b : Book.t) :
  Book.status (crud.update_all_fields u b)
  = default (Book.status b) (BookUpdate.status u).
Proof. frame Book.status. Qed.

Lemma update_all_fields_started_at (u : BookUpdate.t) (b : Book.t) :
  Book.started_at (crud.update_all_fields u b) = Book.started_at b.
Proof. frame Book.started_at. Qed.

Lemma update_all_fields_completed_at (u : BookUpdate.t) (b : Book.t) :
  Book.completed_at (crud.update_all_fields u b) = Book.completed_at b.
Proof. frame Book.completed_at. Qed.

Lemma update_all_fields_id (u : BookUpdate.t) (b : Book.t) :
  Book.id (crud.update_all_fields u b) = Book.id b.
Proof. frame Book.id. Qed.

Lemma update_book_found (db : Session) (book_id : Z) (b : Book.t)
    (u : BookUpdate.t) (utcnow : datetime) :
  db !! book_id = Some b →
  let b' :=
    Book.set_updated_at utcnow
      (crud.update_all_fields u
         (crud.handle_current_page_changes u utcnow
            (crud.handle_status_changes u utcnow b))) in
  crud.update_book db book_id u utcnow = (<[book_id := b']> db, Some b').
Proof. intros Hb. crud_lookup Hb. reflexivity. Qed.

(** What the move to [completed] does in general.  For an existing book
    whose status is not [completed], GeneralUpdate with
    [status = completed] and without [current_page] in its fields sets
    [completed_at] to the clock reading, whatever it was before, and sets
    [current_page] to the [total_pages] that the row has when the update
    starts; the [total_pages] of the result is the one of the update if it
    names one. *)
Theorem update_book_to_completed
    (db : Session) (book_id : Z) (b : Book.t) (u : BookUpdate.t)
    (utcnow : datetime) :
  db !! book_id = Some b →
  BookUpdate.status u = Some completed →
  Book.status b ≠ completed →
  BookUpdate.current_page u = None →
  ∃ b',
    crud.update_book db book_id u utcnow = (<[book_id := b']> db, Some b')
    ∧ Book.status b' = completed
    ∧ Book.completed_at b' = Some utcnow
    ∧ Book.current_page b' = Book.total_pages b
    ∧ Book.total_pages b'
      = default (Book.total_pages b) (BookUpdate.total_pages u).
Proof.
  intros Hb Hstatus Hne Hpage.
  eexists. split; [exact (update_book_found db book_id b u utcnow Hb)|].
  apply String.eqb_neq in Hne.
  assert (Hstep : crud.handle_current_page_changes u utcnow
                    (crud.handle_status_changes u utcnow b)
                  = Book.set_current_page (Book.total_pages b)
                      (Book.set_completed_at (Some utcnow) b)).
  { unfold crud.handle_current_page_changes, crud.handle_status_changes.
    rewrite Hstatus, Hpage. simpl. rewrite Hne. reflexivity. }
  simpl. rewrite Hstep.
  rewrite update_all_fields_status, update_all_fields_completed_at,
    update_all_fields_current_page, update_all_fields_total_pages.
  rewrite Hstatus, Hpage. simpl. repeat split; auto.
Qed.

(** Claim C7.  For an existing book, GeneralUpdate with [current_page] but
    no [status] among its fields derives the status from the new page
    against [total_pages], taken from the update if present and from the
    row otherwise (a positive number, by validation): page 0 gives
    [not_started] and leaves both timestamps; a page strictly between 0
    and the total gives [in_progress] and sets [started_at] to the clock
    reading if it was unset; a page at or beyond the total gives
    [completed] and sets [completed_at] to the clock reading if it was
    unset. *)
Theorem update_book_derives_status
    (db : Session) (book_id : Z) (b : Book.t) (u : BookUpdate.t)
    (p : Z) (utcnow : datetime) :
  db !! book_id = Some b →
  BookUpdate.current_page u = Some p →
  BookUpdate.status u = None →
  let total := default (Book.total_pages b) (BookUpdate.total_pages u) in
  0 < total →
  ∃ b',
    crud.update_book db book_id u utcnow = (<[book_id := b']> db, Some b')
    ∧ Book.current_page b' = p
    ∧ Book.total_pages b' = total
    ∧ (p = 0 →
         Book.status b' = not_started
         ∧ Book.started_at b' = Book.started_at b
         ∧ Book.completed_at b' = Book.completed_at b)
    ∧ (0 < p < total →
         Book.status b' = in_progress
         ∧ Book.started_at b' = Some (default utcnow (Book.started_at b))
         ∧ Book.completed_at b' = Book.completed_at b)
    ∧ (total <= p →
         Book.status b' = completed
         ∧ Book.started_at b' = Book.started_at b
         ∧ Book.completed_at b' = Some (default utcnow (Book.completed_at b))).
Proof.
  intros Hb Hpage Hstatus total Htotal.
  eexists. split; [exact (update_book_found db book_id b u utcnow Hb)|].
  simpl.
  rewrite update_all_fields_status, update_all_fields_completed_at,
    update_all_fields_started_at,
    update_all_fields_current_page, update_all_fields_total_pages.
  unfold crud.handle_current_page_changes, crud.handle_status_changes.
  rewrite Hstatus, Hpage. fold total. simpl.
  destruct b as [? ? ? ? ? ? ? ? ? ? ? started finished ? ?]; simpl in *.
  repeat split; try intros ?; zcases; try lia; simpl;
    destruct started, finished; try reflexivity.
Qed.

End general_update.

Lemma update_book_to_completed_witness :
  sample_db !! 1 = Some sample_book
  ∧ BookUpdate.status (only_status completed) = Some completed
  ∧ Book.status sample_book ≠ completed
  ∧ BookUpdate.current_page (only_status completed) = None
  ∧ ∃ b',
      crud.update_book sample_db 1 (only_status completed) 9
        = (<[1 := b']> sample_db, Some b')
      ∧ Book.status b' = completed
      ∧ Book.completed_at b' = Some 9
      ∧ Book.current_page b' = Book.total_pages sample_book
      ∧ Book.total_pages b'
        = default (Book.total_pages sample_book)
            (BookUpdate.total_pages (only_status completed)).
Proof.
  split; [reflexivity|]. split; [reflexivity|]. split; [discriminate|].
  split; [reflexivity|].
  apply (update_book_to_completed sample_db 1 sample_book
           (only_status completed) 9);
    [reflexivity | reflexivity | discriminate | reflexivity].
Defined.

Lemma update_book_derives_status_witness :
  sample_db !! 1 = Some sample_book
  ∧ BookUpdate.current_page (only_current_page 50) = Some 50
  ∧ BookUpdate.status (only_current_page 50) = None
  ∧ 0 < default (Book.total_pages sample_book)
          (BookUpdate.total_pages (only_current_page 50))
  ∧ ∃ b',
      crud.update_book sample_db 1 (only_current_page 50) 9
        = (<[1 := b']> sample_db, Some b')
      ∧ Book.status b' = in_progress
      ∧ Book.current_page b' = 50.
Proof.
  split; [reflexivity|]. split; [reflexivity|]. split; [reflexivity|].
  split; [simpl; lia|].
  destruct (update_book_derives_status sample_db 1 sample_book
              (only_current_page 50) 50 9)
    as (b' & Hrun & Hpage & _ & _ & Hmid & _);
    [reflexivity | reflexivity | reflexivity | simpl; lia |].
  exists b'. split; [exact Hrun|]. split; [|exact Hpage].
  apply Hmid. simpl. lia.
Defined.

(** ** The page invariant and [completed_at] *)

(** Claim C1.  The claim is that after every reconciler operation
    [0 <= current_page <= total_pages].  GeneralUpdate does not keep it:
    the body that sets only [current_page] to 150 passes the validation of
    [BookUpdate], and on the book of 100 pages the route answers with a
    book whose [current_page] is 150, stored as it is. *)
Theorem general_update_exceeds_total_pages :
  BookUpdate.valid (only_current_page 150) = true
  ∧ sample_db !! 1 = Some sample_book
  ∧ reconcile (GeneralUpdate 1 (only_current_page 150)) sample_db 9
    = (<[1 := sample_overshoot]> sample_db, Some sample_overshoot)
  ∧ main.update_book sample_db 1 (only_current_page 150) 9
    = (<[1 := sample_overshoot]> sample_db, main.Ok sample_overshoot)
  ∧ Book.total_pages sample_overshoot = 100
  ∧ Book.current_page sample_overshoot = 150
  ∧ ¬ page_in_range sample_overshoot.
Proof.
  repeat split; try reflexivity.
  unfold page_in_range. simpl. lia.
Qed.

(** Create does not keep the page invariant either: a body with
    [current_page] beyond [total_pages] is valid, and the book is created
    with the page it names. *)
Lemma create_book_exceeds_total_pages (db : Session) (now utcnow : datetime) :
  let body :=
    BookCreate.mk_payload "Emma" "Austen" 200 (Some 250) None None None None
      None None in
  ∃ book,
    BookCreate.model_validate body = Some book
    ∧ ¬ page_in_range (crud.create_book db book now utcnow).2.
Proof.
  eexists. split; [reflexivity|].
  unfold page_in_range. simpl. lia.
Qed.

(** ProgressUpdate establishes the page invariant from any stored row. *)
Lemma update_book_progress_page_in_range
    (db : Session) (book_id : Z) (b b' : Book.t) (p : Z) (utcnow : datetime) :
  db !! book_id = Some b →
  0 <= Book.total_pages b →
  0 <= p →
  (crud.update_book_progress db book_id p utcnow).2 = Some b' →
  page_in_range b'.
Proof.
  intros Hb Htotal Hp Hrun.
  destruct (update_book_progress_found db book_id utcnow b p Hb)
    as (b1 & Hrun1 & Hpage & Htot & _).
  rewrite Hrun1 in Hrun. simpl in Hrun. injection Hrun as <-.
  unfold page_in_range. lia.
Qed.

(** NotesUpdate touches nothing but [notes] and [updated_at]. *)
Lemma update_book_notes_found
    (db : Session) (book_id : Z) (b : Book.t) (text : string)
    (utcnow : datetime) :
  db !! book_id = Some b →
  crud.update_book_notes db book_id text utcnow
  = (<[book_id := Book.set_updated_at utcnow (Book.set_notes (Some text) b)]> db,
     Some (Book.set_updated_at utcnow (Book.set_notes (Some text) b))).
Proof. intros Hb. crud_lookup Hb. reflexivity. Qed.

(** The claim C2 as it is stated fails at this input: the completed book
    of 100 pages, updated with [status = completed] and [current_page = 50]
    together, keeps the [completed_at] it had while its page is now below
    the total. *)
Lemma general_update_keeps_completed_at :
  BookUpdate.valid (status_and_current_page completed 50) = true
  ∧ sample_completed_db !! 1 = Some sample_completed
  ∧ reconcile (GeneralUpdate 1 (status_and_current_page completed 50))
      sample_completed_db 9
    = (<[1 := sample_regressed]> sample_completed_db, Some sample_regressed)
  ∧ Book.completed_at sample_completed = Some 7
  ∧ ¬ below_total_unset sample_regressed.
Proof.
  repeat split; try reflexivity.
  unfold below_total_unset. simpl. intros H.
  assert (Hlt : 50 < 100) by lia. specialize (H Hlt). discriminate H.
Qed.

(** What [create_book] builds, by the status that the body names. *)
Lemma create_book_fields
    (db : Session) (book : BookCreate.t) (now utcnow : datetime) :
  let r := crud.create_book db book now utcnow in
  r.1 = <[Book.id r.2 := r.2]> db
  ∧ Book.id r.2 = crud.next_id db
  ∧ Book.status r.2 = BookCreate.status book
  ∧ Book.total_pages r.2 = BookCreate.total_pages book
  ∧ (BookCreate.status book = in_progress → Book.started_at r.2 = Some now)
  ∧ (BookCreate.status book ≠ in_progress → Book.started_at r.2 = None)
  ∧ (BookCreate.status book = completed →
       Book.completed_at r.2 = Some now
       ∧ Book.current_page r.2 = BookCreate.total_pages book)
  ∧ (BookCreate.status book ≠ completed →
       Book.completed_at r.2 = None
       ∧ Book.current_page r.2 = BookCreate.current_page book).
Proof.
  unfold crud.create_book, crud.commit. simpl.
  destruct (String.eqb_spec (BookCreate.status book) in_progress);
    simpl;
    destruct (String.eqb_spec (BookCreate.status book) completed);
    simpl; repeat split; intros; congruence.
Qed.

(** Claim C2, amended.  After Create and after ProgressUpdate, on any
    prior state, a [current_page] strictly below [total_pages] in the
    resulting book implies that [completed_at] is unset, so ProgressUpdate
    clears a [completed_at] that was set when the page it stores is below
    the total; NotesUpdate keeps this property of the book it rewrites.
    Nothing is said of GeneralUpdate. *)
Theorem completed_at_unset_below_total
    (db : Session) (op : operation) (utcnow : datetime) (b' : Book.t) :
  reconciles_completed_at op db →
  (reconcile op db utcnow).2 = Some b' →
  below_total_unset b'.
Proof.
  intros Hop Hrun. unfold below_total_unset.
  destruct op as [book now | | book_id p | book_id text];
    [ | destruct Hop | | ]; unfold reconcile in Hrun; cbn [snd] in Hrun.
  - assert (b' = (crud.create_book db book now utcnow).2) as ->
      by congruence.
    destruct (create_book_fields db book now utcnow)
      as (_ & _ & _ & Htot & _ & _ & Hdone & Helse).
    destruct (decide (BookCreate.status book = completed)) as [Hst|Hst].
    + destruct (Hdone Hst) as [_ Hpage]. intros Hlt.
      rewrite Hpage, Htot in Hlt. destruct (Z.lt_irrefl _ Hlt).
    + destruct (Helse Hst) as [Hnone _]. intros _. exact Hnone.
  - destruct (db !! book_id) as [b|] eqn:Hb.
    + destruct (update_book_progress_found db book_id utcnow b p Hb)
        as (b1 & Hrun1 & Hpage & Htot & _ & Hzero & Hmid & Hfull).
      rewrite Hrun1 in Hrun. simpl in Hrun. injection Hrun as <-.
      intros Hlt.
      destruct (Z.eq_dec (Z.min p (Book.total_pages b)) 0) as [H0|H0].
      * apply Hzero; exact H0.
      * apply Hmid; [exact H0 | lia].
    + revert Hrun. crud_lookup Hb. discriminate.
  - destruct (db !! book_id) as [b|] eqn:Hb.
    + rewrite (update_book_notes_found db book_id b text utcnow Hb) in Hrun.
      cbn [snd] in Hrun. injection Hrun as <-.
      exact (Hop b Hb).
    + revert Hrun. crud_lookup Hb. discriminate.
Qed.

Lemma completed_at_unset_below_total_witness :
  reconciles_completed_at (ProgressUpdate 1 50) sample_completed_db
  ∧ (reconcile (ProgressUpdate 1 50) sample_completed_db 9).2
    = Some sample_reopened
  ∧ below_total_unset sample_reopened.
Proof.
  split; [exact I|]. split; [reflexivity|].
  apply (completed_at_unset_below_total sample_completed_db
           (ProgressUpdate 1 50) 9 sample_reopened);
    [exact I | reflexivity].
Defined.

(** ** Identifiers: NotFound, Delete and keys of new rows *)

(** Claim C8.  For an id that names no row, in any session, the empty
    one included, every operation that takes an id signals NotFound:
    [get_book], [update_book], [update_book_progress] and
    [update_book_notes] answer [None], which the routes turn into a 404,
    and [delete_book] answers [False]; each leaves the session as it was.
    For an id that names a row, [delete_book] removes that row, and only
    that row, and answers [True]. *)
Theorem not_found_no_side_effect (db : Session) (book_id : Z) :
  (db !! book_id = None →
     (crud.get_book db book_id = None
      ∧ main.get_book db book_id = (db, main.NotFound))
     ∧ (∀ u t, crud.update_book db book_id u t = (db, None))
     ∧ (∀ u t, BookUpdate.valid u = true →
               main.update_book db book_id u t = (db, main.NotFound))
     ∧ (∀ p t, crud.update_book_progress db book_id p t = (db, None))
     ∧ (∀ p t, ProgressUpdate.valid p = true →
               main.update_book_progress db book_id p t
               = (db, main.NotFound))
     ∧ (∀ text t, crud.update_book_notes db book_id text t = (db, None))
     ∧ (crud.delete_book db book_id = (db, false)
        ∧ main.delete_book db book_id = (db, main.NotFound)))
  ∧ (∀ b, db !! book_id = Some b →
       crud.delete_book db book_id = (delete book_id db, true)
       ∧ main.delete_book db book_id = (delete book_id db, main.Ok tt)
       ∧ delete book_id db !! book_id = None
       ∧ ∀ k, k ≠ book_id → delete book_id db !! k = db !! k).
Proof.
  split.
  - intros Hmissing.
    assert (Hupdate : ∀ u t, crud.update_book db book_id u t = (db, None))
      by (intros; crud_lookup Hmissing; reflexivity).
    assert (Hprogress :
              ∀ p t, crud.update_book_progress db book_id p t = (db, None))
      by (intros; crud_lookup Hmissing; reflexivity).
    split; [|split; [|split; [|split; [|split; [|split]]]]].
    + unfold main.get_book, crud.get_book. rewrite Hmissing. auto.
    + exact Hupdate.
    + intros u t Hvalid. unfold main.update_book.
      rewrite Hvalid, Hupdate. reflexivity.
    + exact Hprogress.
    + intros p t Hvalid. unfold main.update_book_progress.
      rewrite Hvalid, Hprogress. reflexivity.
    + intros text t. crud_lookup Hmissing. reflexivity.
    + unfold main.delete_book. crud_lookup Hmissing. auto.
  - intros b Hpresent. unfold main.delete_book. crud_lookup Hpresent.
    repeat split; [apply lookup_delete_eq|].
    intros k Hk. apply lookup_delete_ne. congruence.
Qed.

Lemma not_found_no_side_effect_witness :
  ((∅ : Session) !! 1 = None
   ∧ crud.update_book_progress ∅ 1 30 9 = (∅, None)
   ∧ crud.update_book ∅ 1 (only_current_page 30) 9 = (∅, None)
   ∧ crud.delete_book ∅ 1 = (∅, false))
  ∧ (sample_db !! 2 = None
     ∧ crud.update_book_progress sample_db 2 30 9 = (sample_db, None)
     ∧ main.delete_book sample_db 2 = (sample_db, main.NotFound))
  ∧ (sample_db !! 1 = Some sample_book
     ∧ crud.delete_book sample_db 1 = (delete 1 sample_db, true)).
Proof.
  split; [|split].
  - destruct (not_found_no_side_effect ∅ 1) as [Hempty _].
    destruct (Hempty (lookup_empty 1))
      as (_ & Hupdate & _ & Hprogress & _ & _ & [Hgone _]).
    split; [apply lookup_empty|]. split; [apply Hprogress|].
    split; [apply Hupdate | exact Hgone].
  - destruct (not_found_no_side_effect sample_db 2) as [Hmissing _].
    destruct (Hmissing eq_refl)
      as (_ & _ & _ & Hprogress & _ & _ & [_ Hgone]).
    split; [reflexivity|]. split; [apply Hprogress | exact Hgone].
  - destruct (not_found_no_side_effect sample_db 1) as [_ Hpresent].
    destruct (Hpresent sample_book eq_refl) as (Hdel & _).
    split; [reflexivity | exact Hdel].
Defined.

(** The key of a new row is above every key in use, hence free. *)
Lemma next_id_above (db : Session) (k : Z) (b : Book.t) :
  db !! k = Some b → k < crud.next_id db.
Proof.
  unfold crud.next_id. revert k b.
  apply (map_fold_weak_ind
           (λ r (m : Session), ∀ k b, m !! k = Some b → k < Z.succ r)).
  - intros k b Hk. rewrite lookup_empty in Hk. discriminate.
  - intros i x m r _ IH k b Hk.
    destruct (decide (i = k)) as [->|Hne].
    + lia.
    + rewrite lookup_insert_ne in Hk by exact Hne.
      specialize (IH k b Hk). lia.
Qed.

Lemma next_id_fresh (db : Session) : db !! crud.next_id db = None.
Proof.
  destruct (db !! crud.next_id db) as [b|] eqn:Hk; [|reflexivity].
  apply next_id_above in Hk. lia.
Qed.

(** Create adds one row and leaves the others. *)
Lemma create_book_other (db : Session) (book : BookCreate.t)
    (now utcnow : datetime) (k : Z) (b : Book.t) :
  db !! k = Some b →
  (crud.create_book db book now utcnow).1 !! k = Some b.
Proof.
  intros Hk.
  destruct (create_book_fields db book now utcnow) as (-> & Hid & _).
  rewrite lookup_insert_ne; [exact Hk|].
  rewrite Hid. apply next_id_above in Hk. lia.
Qed.

(** ** Create *)

(** Claim C10.  Create never derives the status from the page: for a
    valid body with [0 < current_page < total_pages] whose status is
    omitted, and so defaults to [not_started], or is [not_started], the
    created book has status [not_started], no [started_at], and the page
    of the body. *)
Theorem create_book_keeps_not_started
    (db : Session) (body : BookCreate.payload) (book : BookCreate.t)
    (c : Z) (now utcnow : datetime) :
  BookCreate.model_validate body = Some book →
  BookCreate.p_current_page body = Some c →
  0 < c < BookCreate.p_total_pages body →
  BookCreate.p_status body = None
  ∨ BookCreate.p_status body = Some not_started →
  ∃ db' b',
    main.create_book db body now utcnow = (db', main.Ok b')
    ∧ db' !! Book.id b' = Some b'
    ∧ Book.status b' = not_started
    ∧ Book.started_at b' = None
    ∧ Book.current_page b' = c
    ∧ Book.total_pages b' = BookCreate.p_total_pages body.
Proof.
  intros Hvalid Hpage Hrange Hstatus.
  assert (Hbook : BookCreate.status book = not_started
                  ∧ BookCreate.current_page book = c
                  ∧ BookCreate.total_pages book = BookCreate.p_total_pages body).
  { unfold BookCreate.model_validate in Hvalid.
    destruct (BookCreate.valid _); [|discriminate Hvalid].
    injection Hvalid as <-. simpl. rewrite Hpage.
    destruct Hstatus as [-> | ->]; auto. }
  destruct Hbook as (Hst & Hcp & Htp).
  destruct (create_book_fields db book now utcnow)
    as (Hdb & _ & Hstatus' & Htotal & _ & Hstart & _ & Hkeep).
  exists (crud.create_book db book now utcnow).1,
         (crud.create_book db book now utcnow).2.
  split; [unfold main.create_book; rewrite Hvalid; reflexivity|].
  split; [rewrite Hdb; apply lookup_insert_eq|].
  split; [congruence|].
  split; [apply Hstart; rewrite Hst; discriminate|].
  split; [|congruence].
  destruct Hkeep as [_ Hkeep]; [rewrite Hst; discriminate|]. congruence.
Qed.

Lemma create_book_keeps_not_started_witness :
  BookCreate.p_current_page sample_payload = Some 50
  ∧ 0 < 50 < BookCreate.p_total_pages sample_payload
  ∧ BookCreate.p_status sample_payload = None
  ∧ ∃ db' b',
      main.create_book sample_db sample_payload 8 9 = (db', main.Ok b')
      ∧ db' !! Book.id b' = Some b'
      ∧ Book.status b' = not_started
      ∧ Book.started_at b' = None
      ∧ Book.current_page b' = 50
      ∧ Book.total_pages b' = BookCreate.p_total_pages sample_payload.
Proof.
  split; [reflexivity|]. split; [simpl; lia|]. split; [reflexivity|].
  apply (create_book_keeps_not_started sample_db sample_payload
           (BookCreate.mk "Emma" "Austen" 200 50 not_started None None None
              None false) 50 8 9);
    [reflexivity | reflexivity | simpl; lia | left; reflexivity].
Defined.

(** ** Validated sessions

    Every write goes through a schema that demands [total_pages > 0] and a
    status among the three literals, and no route changes the id of a row:
    the sessions that requests build from the empty table satisfy
    [Session_ok], which is where the hypotheses on [total_pages] in the
    theorems above come from. *)

Lemma Session_ok_empty : Session_ok ∅.
Proof. intros k b Hk. rewrite lookup_empty in Hk. discriminate. Qed.

Lemma Session_ok_insert (db : Session) (k : Z) (b : Book.t) :
  Session_ok db →
  Book.id b = k →
  0 < Book.total_pages b →
  validate_status (Book.status b) = true →
  Session_ok (<[k := b]> db).
Proof.
  intros Hok Hid Htotal Hstatus j c Hj.
  destruct (decide (k = j)) as [->|Hne].
  - rewrite lookup_insert_eq in Hj. injection Hj as <-. auto.
  - rewrite lookup_insert_ne in Hj by exact Hne. eauto.
Qed.

Lemma Session_ok_delete (db : Session) (k : Z) :
  Session_ok db → Session_ok (delete k db).
Proof.
  intros Hok j c Hj. apply lookup_delete_Some in Hj as [_ Hj]. eauto.
Qed.

Lemma BookCreate_valid_fields (m : BookCreate.t) :
  BookCreate.valid m = true →
  0 < BookCreate.total_pages m
  ∧ 0 <= BookCreate.current_page m
  ∧ validate_status (BookCreate.status m) = true.
Proof.
  unfold BookCreate.valid.
  rewrite !andb_true_iff, Z.ltb_lt, Z.leb_le. tauto.
Qed.

Lemma BookUpdate_valid_total_pages (m : BookUpdate.t) (n : Z) :
  BookUpdate.valid m = true → BookUpdate.total_pages m = Some n → 0 < n.
Proof.
  unfold BookUpdate.valid. rewrite !andb_true_iff. intros H Hn.
  rewrite Hn in H. simpl in H. rewrite Z.ltb_lt in H. tauto.
Qed.

Lemma BookUpdate_valid_status (m : BookUpdate.t) (s : string) :
  BookUpdate.valid m = true →
  BookUpdate.status m = Some s →
  validate_status s = true.
Proof.
  unfold BookUpdate.valid. rewrite !andb_true_iff. intros H Hs.
  rewrite Hs in H. simpl in H. tauto.
Qed.

(** The two derivation blocks of [update_book] leave the id and the page
    count, and a status that they write is one of the literals. *)
Lemma handle_changes_frame (u : BookUpdate.t) (utcnow : datetime) (b : Book.t) :
  let b' :=
    crud.handle_current_page_changes u utcnow
      (crud.handle_status_changes u utcnow b) in
  Book.id b' = Book.id b
  ∧ Book.total_pages b' = Book.total_pages b
  ∧ (validate_status (Book.status b) = true →
     validate_status (Book.status b') = true).
Proof.
  unfold crud.handle_current_page_changes, crud.handle_status_changes.
  repeat case_match; cbn; auto.
Qed.

Lemma Session_ok_serve (db : Session) (req : request) (utcnow : datetime) :
  Session_ok db → Session_ok (serve db req utcnow).
Proof.
  intros Hok. destruct req as [body now | k u | k p | k]; simpl.
  - unfold main.create_book, BookCreate.model_validate.
    destruct (BookCreate.valid _) eqn:Hvalid; [|exact Hok].
    cbn [fst]. apply BookCreate_valid_fields in Hvalid as (Hpos & _ & Hst).
    match goal with |- context [crud.create_book db ?m now utcnow] =>
      destruct (create_book_fields db m now utcnow)
        as (-> & _ & Hstatus & Htotal & _) end.
    apply Session_ok_insert; [exact Hok | reflexivity | |].
    + rewrite Htotal. exact Hpos.
    + rewrite Hstatus. exact Hst.
  - unfold main.update_book.
    destruct (BookUpdate.valid u) eqn:Hvalid; [|exact Hok].
    destruct (db !! k) as [b|] eqn:Hb.
    + rewrite (update_book_found db k b u utcnow Hb). cbn [main.or_404 fst].
      destruct (Hok k b Hb) as (Hid & Htotal & Hst).
      destruct (handle_changes_frame u utcnow b) as (Hid' & Htotal' & Hst').
      apply Session_ok_insert; [exact Hok | | |]; cbn.
      * rewrite update_all_fields_id. congruence.
      * rewrite update_all_fields_total_pages.
        destruct (BookUpdate.total_pages u) as [n|] eqn:Hn; cbn.
        -- exact (BookUpdate_valid_total_pages u n Hvalid Hn).
        -- congruence.
      * rewrite update_all_fields_status.
        destruct (BookUpdate.status u) as [s|] eqn:Hs; cbn.
        -- exact (BookUpdate_valid_status u s Hvalid Hs).
        -- apply Hst'. exact Hst.
    + crud_lookup Hb. exact Hok.
  - unfold main.update_book_progress.
    destruct (ProgressUpdate.valid p); [|exact Hok].
    destruct (db !! k) as [b|] eqn:Hb.
    + destruct (Hok k b Hb) as (Hid & Htotal & Hst).
      crud_lookup Hb. cbn [main.or_404 fst].
      apply Session_ok_insert; [exact Hok | | |]; cbn;
        repeat case_match; cbn; auto.
    + crud_lookup Hb. exact Hok.
  - unfold main.delete_book, crud.delete_book, crud.get_book.
    destruct (db !! k); cbn; [apply Session_ok_delete|]; exact Hok.
Qed.

(** The invariant holds along every sequence of requests. *)
Theorem Session_ok_serve_all (reqs : list (request * datetime)) (db : Session) :
  Session_ok db → Session_ok (serve_all db reqs).
Proof.
  revert db. induction reqs as [|[req utcnow] rest IH]; intros db Hok.
  - exact Hok.
  - simpl. apply IH. apply Session_ok_serve. exact Hok.
Qed.

(** In every session that requests of the embedding (their bodies set no
    field to [null]) build from the empty table, each row sits under its
    own id, has a positive page count and a status among the three
    literals. *)
Corollary Session_ok_reachable (reqs : list (request * datetime)) :
  Session_ok (serve_all ∅ reqs).
Proof. apply Session_ok_serve_all, Session_ok_empty. Qed.

(** ** Corner cases and scenarios *)

(** A negative page never reaches [crud]: the route answers 422 and the
    session stays as it is.  ([crud.update_book_progress] itself bounds
    the page from above only.) *)
Lemma update_book_progress_negative_page
    (db : Session) (book_id : Z) (p : Z) (utcnow : datetime) :
  p < 0 →
  main.update_book_progress db book_id p utcnow = (db, main.InvalidInput).
Proof.
  intros Hp. unfold main.update_book_progress, ProgressUpdate.valid.
  zcases; try lia; reflexivity.
Qed.

(** Claim C3.  The claim is that GeneralUpdate with [status = completed],
    on a book with another status and without [current_page] among its
    fields, sets [completed_at] to the clock reading and forces
    [current_page = total_pages].  The page is forced to the total that
    the row has before the fields of the update are applied: the valid
    body that sets [status = completed] and [total_pages = 200], on the
    book of 100 pages, sets [completed_at] and leaves a completed book at
    page 100 of 200. *)
Theorem update_book_to_completed_stale_total :
  BookUpdate.valid (status_and_total_pages completed 200) = true
  ∧ sample_db !! 1 = Some sample_book
  ∧ Book.status sample_book ≠ completed
  ∧ BookUpdate.status (status_and_total_pages completed 200) = Some completed
  ∧ BookUpdate.current_page (status_and_total_pages completed 200) = None
  ∧ reconcile (GeneralUpdate 1 (status_and_total_pages completed 200))
      sample_db 9
    = (<[1 := sample_stale_total]> sample_db, Some sample_stale_total)
  ∧ main.update_book sample_db 1 (status_and_total_pages completed 200) 9
    = (<[1 := sample_stale_total]> sample_db, main.Ok sample_stale_total)
  ∧ Book.status sample_stale_total = completed
  ∧ Book.completed_at sample_stale_total = Some 9
  ∧ Book.current_page sample_stale_total = 100
  ∧ Book.total_pages sample_stale_total = 200
  ∧ Book.current_page sample_stale_total
    ≠ Book.total_pages sample_stale_total.
Proof. repeat split; try reflexivity; discriminate. Qed.

(** [update_book] with a page below the total on a completed book derives
    [in_progress] and leaves [completed_at]; [update_book_progress] with
    the same page clears it. *)
Example update_book_leaves_completed_at :
  (crud.update_book sample_completed_db 1 (only_current_page 50) 9).2
  = Some (Book.mk 1 "Dune" "Herbert" 100 50 in_progress None None None None
            false (Some 5) (Some 7) 1 9)
  ∧ (crud.update_book_progress sample_completed_db 1 50 9).2
    = Some sample_reopened.
Proof. split; reflexivity. Qed.

(** The scenario [dune_requests], request by request. *)
Example dune_created :
  serve_all ∅ (take 1 dune_requests) !! 1
  = Some (Book.mk 1 "Dune" "Herbert" 500 0 not_started None None None None
            false None None 1 1).
Proof. reflexivity. Qed.

Example dune_completed :
  serve_all ∅ (take 2 dune_requests) !! 1
  = Some (Book.mk 1 "Dune" "Herbert" 500 500 completed None None None None
            false (Some 2) (Some 2) 1 2).
Proof. reflexivity. Qed.

Example dune_reset :
  serve_all ∅ dune_requests !! 1
  = Some (Book.mk 1 "Dune" "Herbert" 500 0 not_started None None None None
            false None None 1 3).
Proof. reflexivity. Qed.

(** ** Statistics *)

(** X27.  For the empty collection every count is 0, no page has been read
    and the average is the literal [0.0], whatever the engine's sum and
    Python's [round] are. *)
Lemma get_reading_stats_empty
    (sql_sum : list float → option float) (round : float → Z → float) :
  crud.get_reading_stats sql_sum round ∅
  = BookStats.mk 0 0 0 0 0 0%float.
Proof.
  unfold crud.get_reading_stats, crud.status_count, crud.count,
    crud.sum_int, crud.rows.
  rewrite map_to_list_empty. reflexivity.
Qed.

(** X28.  [total_books] is the number of rows. *)
Lemma get_reading_stats_total_books
    (sql_sum : list float → option float) (round : float → Z → float)
    (db : Session) :
  BookStats.total_books (crud.get_reading_stats sql_sum round db)
  = Z.of_nat (size db).
Proof.
  unfold crud.get_reading_stats, crud.count, crud.rows. simpl.
  rewrite <- length_map_to_list.
  induction (map_to_list db) as [|[k b] l IH]; [reflexivity|].
  rewrite fmap_cons, filter_cons_True by reflexivity.
  simpl length. rewrite !Nat2Z.inj_succ, IH. reflexivity.
Qed.

(** * Further properties *)

(** ** Listings: [get_books] and [get_favorite_books] *)

#[global] Instance newest_first_total : Total newest_first.
Proof. intros a b. unfold newest_first. lia. Qed.

#[global] Instance newest_first_transitive : Transitive newest_first.
Proof. intros a b c. unfold newest_first. lia. Qed.

Lemma merge_newest_first_sorts : sorts_newest_first merge_newest_first.
Proof.
  intros l. unfold merge_newest_first. split.
  - apply merge_sort_Permutation.
  - apply StronglySorted_merge_sort; apply _.
Qed.

Lemma elem_of_rows (db : Session) (b : Book.t) :
  b ∈ crud.rows db ↔ ∃ k, db !! k = Some b.
Proof.
  unfold crud.rows. rewrite list_elem_of_fmap. split.
  - intros ([k c] & -> & Hin). exists k. by apply elem_of_map_to_list.
  - intros (k & Hk). exists (k, b). split; [done|].
    by apply elem_of_map_to_list.
Qed.

Lemma length_rows (db : Session) : length (crud.rows db) = size db.
Proof. unfold crud.rows. by rewrite length_fmap, length_map_to_list. Qed.

Lemma StronglySorted_take {A} (R : relation A) (n : nat) (l : list A) :
  StronglySorted R l → StronglySorted R (take n l).
Proof.
  intros Hl. rewrite <- (take_drop n l) in Hl.
  apply StronglySorted_app in Hl. tauto.
Qed.

Lemma StronglySorted_drop {A} (R : relation A) (n : nat) (l : list A) :
  StronglySorted R l → StronglySorted R (drop n l).
Proof.
  intros Hl. rewrite <- (take_drop n l) in Hl.
  apply StronglySorted_app in Hl. tauto.
Qed.

Lemma elem_of_limit_offset (skip n : Z) (l : list Book.t) (b : Book.t) :
  b ∈ crud.limit n (crud.offset skip l) → b ∈ l.
Proof.
  unfold crud.limit, crud.offset. intros Hb.
  assert (b ∈ drop (Z.to_nat skip) l) as Hdrop.
  { destruct (n <? 0); [exact Hb|].
    eapply elem_of_sublist; [exact Hb | apply sublist_take]. }
  eapply elem_of_sublist; [exact Hdrop | apply sublist_drop].
Qed.

(** X1.  Every book that [get_books] returns is a stored row; when a
    non-empty [status] is given the book has that status, and when a
    non-empty [search] is given its title or its author matches the
    pattern [%search%]. *)
Theorem get_books_returns_matching_rows
    (ilike : string → string → bool) (order : list Book.t → list Book.t)
    (db : Session) (skip n : Z) (status search : option string)
    (b : Book.t) :
  sorts_newest_first order →
  b ∈ crud.get_books ilike order db skip n status search →
  (∃ k, db !! k = Some b)
  ∧ (∀ s, status = Some s → s ≠ "" → Book.status b = s)
  ∧ (∀ s, search = Some s → s ≠ "" →
       ilike (Book.title b) ("%" ++ s ++ "%")
       || ilike (Book.author b) ("%" ++ s ++ "%") = true).
Proof.
  intros Horder Hb. unfold crud.get_books in Hb.
  apply elem_of_limit_offset in Hb.
  rewrite (proj1 (Horder _)) in Hb.
  assert (Hgiven : ∀ o s, o = Some s → s ≠ "" → crud.given o = Some s).
  { intros o s -> Hs. simpl. destruct (String.eqb_spec s ""); congruence. }
  destruct (crud.given search) as [q|] eqn:Hq;
    destruct (crud.given status) as [st|] eqn:Hst;
    repeat (apply list_elem_of_filter in Hb as [? Hb]);
    (split; [by apply elem_of_rows|]);
    split; intros s Hs Hne;
    pose proof (Hgiven _ s Hs Hne) as Heq; congruence.
Qed.

Lemma get_books_returns_matching_rows_witness :
  sorts_newest_first merge_newest_first
  ∧ sample_favorite
    ∈ crud.get_books exact_ilike merge_newest_first sample_shelf 0 10
        (Some completed) None
  ∧ (∃ k, sample_shelf !! k = Some sample_favorite)
  ∧ Book.status sample_favorite = completed.
Proof.
  assert (Hin : sample_favorite
                ∈ crud.get_books exact_ilike merge_newest_first sample_shelf
                    0 10 (Some completed) None)
    by (vm_compute; apply list_elem_of_here).
  split; [exact merge_newest_first_sorts|]. split; [exact Hin|].
  destruct (get_books_returns_matching_rows exact_ilike merge_newest_first
              sample_shelf 0 10 (Some completed) None sample_favorite
              merge_newest_first_sorts Hin) as (Hrow & Hstatus & _).
  split; [exact Hrow|]. apply Hstatus; [reflexivity | discriminate].
Defined.

(** X2.  [get_books] lists most recently updated first: the books are in
    descending order of [updated_at], whatever the filters and the page. *)
Theorem get_books_newest_first
    (ilike : string → string → bool) (order : list Book.t → list Book.t)
    (db : Session) (skip n : Z) (status search : option string) :
  sorts_newest_first order →
  StronglySorted newest_first
    (crud.get_books ilike order db skip n status search).
Proof.
  intros Horder. unfold crud.get_books. cbv zeta.
  match goal with |- context [order ?l] => generalize l end.
  intros l. unfold crud.limit, crud.offset.
  destruct (n <? 0);
    [|apply StronglySorted_take]; apply StronglySorted_drop, Horder.
Qed.

Lemma get_books_newest_first_witness :
  sorts_newest_first merge_newest_first
  ∧ StronglySorted newest_first
      (crud.get_books exact_ilike merge_newest_first sample_shelf 0 10
         None None).
Proof.
  split; [exact merge_newest_first_sorts|].
  apply (get_books_newest_first exact_ilike merge_newest_first sample_shelf
           0 10 None None merge_newest_first_sorts).
Defined.



(** X4.  Without a status and without a search term (absent or empty, which
    [if status:] and [if search:] treat alike), from offset 0 and with a
    limit that is at least the number of stored books, [get_books] returns
    every stored book exactly once. *)
Theorem get_books_unfiltered_complete
    (ilike : string → string → bool) (order : list Book.t → list Book.t)
    (db : Session) (n : Z) (status search : option string) :
  sorts_newest_first order →
  status = None ∨ status = Some "" →
  search = None ∨ search = Some "" →
  Z.of_nat (size db) <= n →
  crud.get_books ilike order db 0 n status search ≡ₚ crud.rows db.
Proof.
  intros Horder Hstatus Hsearch Hn. unfold crud.get_books.
  assert (crud.given status = None) as -> by (destruct Hstatus as [-> | ->]; reflexivity).
  assert (crud.given search = None) as -> by (destruct Hsearch as [-> | ->]; reflexivity).
  cbv zeta. unfold crud.limit, crud.offset.
  change (Z.to_nat 0) with 0%nat. rewrite drop_0.
  destruct (Z.ltb_spec n 0); [apply Horder|].
  rewrite take_ge; [apply Horder|].
  rewrite (proj1 (Horder _)), length_rows. lia.
Qed.

Lemma get_books_unfiltered_complete_witness :
  sorts_newest_first merge_newest_first
  ∧ Z.of_nat (size sample_shelf) <= 100
  ∧ crud.get_books exact_ilike merge_newest_first sample_shelf 0 100
      (Some "") None
    ≡ₚ crud.rows sample_shelf.
Proof.
  assert (Hsize : Z.of_nat (size sample_shelf) <= 100)
    by (vm_compute; discriminate).
  split; [exact merge_newest_first_sorts|]. split; [exact Hsize|].
  apply (get_books_unfiltered_complete exact_ilike merge_newest_first
           sample_shelf 100 (Some "") None merge_newest_first_sorts);
    [right; reflexivity | left; reflexivity | exact Hsize].
Defined.

(** X5.  [get_favorite_books] returns exactly the stored books that are
    marked as favourite, each once for each row, most recently updated
    first, and without any limit. *)
Theorem get_favorite_books_exact
    (order : list Book.t → list Book.t) (db : Session) :
  sorts_newest_first order →
  crud.get_favorite_books order db
  ≡ₚ filter (λ b, Book.is_favorite b = true) (crud.rows db)
  ∧ StronglySorted newest_first (crud.get_favorite_books order db)
  ∧ ∀ b, b ∈ crud.get_favorite_books order db
         ↔ Book.is_favorite b = true ∧ ∃ k, db !! k = Some b.
Proof.
  intros Horder. unfold crud.get_favorite_books.
  split; [apply Horder|]. split; [apply Horder|].
  intros b. rewrite (proj1 (Horder _)), list_elem_of_filter, elem_of_rows.
  tauto.
Qed.

Lemma get_favorite_books_exact_witness :
  sorts_newest_first merge_newest_first
  ∧ (sample_favorite ∈ crud.get_favorite_books merge_newest_first sample_shelf
     ↔ Book.is_favorite sample_favorite = true
       ∧ ∃ k, sample_shelf !! k = Some sample_favorite).
Proof.
  split; [exact merge_newest_first_sorts|].
  apply (get_favorite_books_exact merge_newest_first sample_shelf
           merge_newest_first_sorts).
Defined.


(** ** Statistics: [get_reading_stats] *)

Lemma rows_insert (db : Session) (k : Z) (b : Book.t) :
  db !! k = None → crud.rows (<[k := b]> db) ≡ₚ b :: crud.rows db.
Proof.
  intros Hk. unfold crud.rows.
  rewrite (map_to_list_insert db k b Hk). reflexivity.
Qed.

Lemma rows_delete (db : Session) (k : Z) (b : Book.t) :
  db !! k = Some b → b :: crud.rows (delete k db) ≡ₚ crud.rows db.
Proof.
  intros Hk. unfold crud.rows.
  rewrite <- (map_to_list_delete db k b Hk). reflexivity.
Qed.

Lemma count_perm (keep : Book.t → bool) (l1 l2 : list Book.t) :
  l1 ≡ₚ l2 →
  length (filter (λ b, keep b = true) l1)
  = length (filter (λ b, keep b = true) l2).
Proof. intros H. by rewrite H. Qed.

Lemma sum_perm (column : Book.t → Z) (l1 l2 : list Book.t) :
  l1 ≡ₚ l2 →
  foldr Z.add 0 (column <$> l1) = foldr Z.add 0 (column <$> l2).
Proof.
  induction 1 as [|x l1 l2 _ IH|x y l|l1 l2 l3 _ IH1 _ IH2];
    rewrite ?fmap_cons; simpl; lia.
Qed.

Lemma sum_int_default (column : Book.t → Z) (db : Session) :
  default 0 (crud.sum_int column db)
  = foldr Z.add 0 (column <$> crud.rows db).
Proof. unfold crud.sum_int. destruct (crud.rows db); reflexivity. Qed.

(** X7.  When every stored status is one of the three literals, the three
    status counts of the statistics add up to [total_books]. *)
Theorem get_reading_stats_buckets
    (sql_sum : list float → option float) (round : float → Z → float)
    (db : Session) :
  (∀ k b, db !! k = Some b → validate_status (Book.status b) = true) →
  let s := crud.get_reading_stats sql_sum round db in
  BookStats.total_books s
  = BookStats.books_not_started s + BookStats.books_in_progress s
    + BookStats.books_completed s.
Proof.
  intros Hvalid. cbn.
  unfold crud.status_count, crud.count.
  assert (Hrows : Forall (λ b, validate_status (Book.status b) = true)
                    (crud.rows db)).
  { apply Forall_forall. intros b Hb. apply elem_of_rows in Hb as [k Hk].
    eauto. }
  induction Hrows as [|b l Hb _ IH]; [reflexivity|].
  apply validate_status_spec in Hb.
  rewrite !filter_cons. 
  destruct Hb as [Hb | [Hb | Hb]]; rewrite Hb; simpl;
    repeat case_decide; try discriminate; try congruence;
    simpl length; clear - IH; lia.
Qed.

Lemma get_reading_stats_buckets_witness :
  (∀ k b, sample_shelf !! k = Some b →
          validate_status (Book.status b) = true)
  ∧ BookStats.total_books
      (crud.get_reading_stats (λ _, None) (λ x _, x) sample_shelf)
    = 0 + 1 + 1.
Proof.
  assert (Hvalid : ∀ k b, sample_shelf !! k = Some b →
                          validate_status (Book.status b) = true).
  { apply (proj1 (map_Forall_lookup
                      (λ (_ : Z) (b : Book.t),
                         validate_status (Book.status b) = true)
                      sample_shelf)).
    apply (bool_decide_unpack _). vm_compute. exact I. }
  split; [exact Hvalid|].
  exact (get_reading_stats_buckets (λ _, None) (λ x _, x) sample_shelf Hvalid).
Defined.

(** X8.  Creating a book raises [total_books] by one and
    [total_pages_read] by the page of the created book. *)
Theorem get_reading_stats_after_create
    (sql_sum : list float → option float) (round : float → Z → float)
    (db : Session) (book : BookCreate.t) (now utcnow : datetime) :
  let r := crud.create_book db book now utcnow in
  let before := crud.get_reading_stats sql_sum round db in
  let after := crud.get_reading_stats sql_sum round r.1 in
  BookStats.total_books after = BookStats.total_books before + 1
  ∧ BookStats.total_pages_read after
    = BookStats.total_pages_read before + Book.current_page r.2.
Proof.
  intros r before after.
  destruct (create_book_fields db book now utcnow) as (Hdb & Hid & _).
  fold r in Hdb, Hid.
  assert (Hrows : crud.rows r.1 ≡ₚ r.2 :: crud.rows db).
  { rewrite Hdb. apply rows_insert. rewrite Hid. apply next_id_fresh. }
  clearbody r. subst before after.
  unfold crud.get_reading_stats, BookStats.total_books,
    BookStats.total_pages_read, crud.count.
  rewrite !sum_int_default.
  rewrite (count_perm _ _ _ Hrows), (sum_perm _ _ _ Hrows).
  rewrite filter_cons_True by reflexivity. rewrite fmap_cons.
  cbn [length foldr]. lia.
Qed.

(** X9.  Deleting a stored book lowers [total_books] by one and
    [total_pages_read] by the page of that book; deleting under an id that
    names no row changes neither. *)
Theorem get_reading_stats_after_delete
    (sql_sum : list float → option float) (round : float → Z → float)
    (db : Session) (book_id : Z) :
  let before := crud.get_reading_stats sql_sum round db in
  let after :=
    crud.get_reading_stats sql_sum round (crud.delete_book db book_id).1 in
  BookStats.total_books after
  = BookStats.total_books before
    - match db !! book_id with Some _ => 1 | None => 0 end
  ∧ BookStats.total_pages_read after
    = BookStats.total_pages_read before
      - from_option Book.current_page 0 (db !! book_id).
Proof.
  cbn zeta. unfold crud.delete_book, crud.get_book.
  destruct (db !! book_id) as [b|] eqn:Hb; cbn [fst from_option].
  - pose proof (rows_delete db book_id b Hb) as Hrows.
    unfold crud.get_reading_stats, BookStats.total_books,
      BookStats.total_pages_read, crud.count.
    rewrite !sum_int_default.
    rewrite <- (count_perm _ _ _ Hrows), <- (sum_perm _ _ _ Hrows).
    rewrite filter_cons_True by reflexivity. rewrite fmap_cons.
    cbn [length foldr]. lia.
  - lia.
Qed.

(** ** GeneralUpdate: more of [update_book] *)

(** Read [get] through the ten assignments of [update_all_fields]. *)
Ltac read_field get :=
  unfold crud.update_all_fields;
  repeat first
    [ rewrite (setattr_opt_other get) by reflexivity
    | rewrite (setattr_opt_same get) by reflexivity ];
  try reflexivity.

Lemma update_all_fields_title (u : BookUpdate.t) (b : Book.t) :
  Book.title (crud.update_all_fields u b)
  = default (Book.title b) (BookUpdate.title u).
Proof. read_field Book.title. Qed.

Lemma update_all_fields_author (u : BookUpdate.t) (b : Book.t) :
  Book.author (crud.update_all_fields u b)
  = default (Book.author b) (BookUpdate.author u).
Proof. read_field Book.author. Qed.

Lemma update_all_fields_cover_url (u : BookUpdate.t) (b : Book.t) :
  Book.cover_url (crud.update_all_fields u b)
  = default (Book.cover_url b) (Some <$> BookUpdate.cover_url u).
Proof. read_field Book.cover_url. Qed.

Lemma update_all_fields_genre (u : BookUpdate.t) (b : Book.t) :
  Book.genre (crud.update_all_fields u b)
  = default (Book.genre b) (Some <$> BookUpdate.genre u).
Proof. read_field Book.genre. Qed.

Lemma update_all_fields_notes (u : BookUpdate.t) (b : Book.t) :
  Book.notes (crud.update_all_fields u b)
  = default (Book.notes b) (Some <$> BookUpdate.notes u).
Proof. read_field Book.notes. Qed.

Lemma update_all_fields_rating (u : BookUpdate.t) (b : Book.t) :
  Book.rating (crud.update_all_fields u b)
  = default (Book.rating b) (Some <$> BookUpdate.rating u).
Proof. read_field Book.rating. Qed.

Lemma update_all_fields_is_favorite (u : BookUpdate.t) (b : Book.t) :
  Book.is_favorite (crud.update_all_fields u b)
  = default (Book.is_favorite b) (BookUpdate.is_favorite u).
Proof. read_field Book.is_favorite. Qed.

Lemma update_all_fields_created_at (u : BookUpdate.t) (b : Book.t) :
  Book.created_at (crud.update_all_fields u b) = Book.created_at b.
Proof. read_field Book.created_at. Qed.

Lemma update_all_fields_updated_at (u : BookUpdate.t) (b : Book.t) :
  Book.updated_at (crud.update_all_fields u b) = Book.updated_at b.
Proof. read_field Book.updated_at. Qed.

(** Two books with the same fields are the same book. *)
Lemma Book_ext (b c : Book.t) :
  Book.id b = Book.id c →
  Book.title b = Book.title c →
  Book.author b = Book.author c →
  Book.total_pages b = Book.total_pages c →
  Book.current_page b = Book.current_page c →
  Book.status b = Book.status c →
  Book.cover_url b = Book.cover_url c →
  Book.genre b = Book.genre c →
  Book.notes b = Book.notes c →
  Book.rating b = Book.rating c →
  Book.is_favorite b = Book.is_favorite c →
  Book.started_at b = Book.started_at c →
  Book.completed_at b = Book.completed_at c →
  Book.created_at b = Book.created_at c →
  Book.updated_at b = Book.updated_at c →
  b = c.
Proof. destruct b, c; simpl; intros; subst; reflexivity. Qed.

Lemma default_default {A : Type} (x : A) (o : option A) :
  default (default x o) o = default x o.
Proof. destruct o; reflexivity. Qed.

(** Rewriting with the fields of [update_all_fields]. *)
Ltac fields :=
  rewrite ?update_all_fields_id, ?update_all_fields_title,
    ?update_all_fields_author, ?update_all_fields_total_pages,
    ?update_all_fields_current_page, ?update_all_fields_status,
    ?update_all_fields_cover_url, ?update_all_fields_genre,
    ?update_all_fields_notes, ?update_all_fields_rating,
    ?update_all_fields_is_favorite, ?update_all_fields_started_at,
    ?update_all_fields_completed_at, ?update_all_fields_created_at,
    ?update_all_fields_updated_at.

(** Assigning the fields of an update a second time changes nothing. *)
Lemma update_all_fields_again (u : BookUpdate.t) (t : datetime) (b : Book.t) :
  crud.update_all_fields u (Book.set_updated_at t (crud.update_all_fields u b))
  = Book.set_updated_at t (crud.update_all_fields u b).
Proof.
  apply Book_ext; fields; cbn; fields; rewrite ?default_default; reflexivity.
Qed.

(** The two derivation blocks write at most the page, the status and the
    two timestamps. *)
Lemma handle_changes_writes (u : BookUpdate.t) (utcnow : datetime) (b : Book.t) :
  ∃ page status started finished,
    crud.handle_current_page_changes u utcnow
      (crud.handle_status_changes u utcnow b)
    = Book.set_completed_at finished
        (Book.set_started_at started
           (Book.set_status status (Book.set_current_page page b))).
Proof.
  unfold crud.handle_current_page_changes, crud.handle_status_changes.
  destruct b. repeat case_match; do 4 eexists;
    unfold Book.set_completed_at, Book.set_started_at, Book.set_status,
      Book.set_current_page; cbn; reflexivity.
Qed.

(** X10.  An update that names no [current_page], and no [status] or the
    status that the book already has, leaves the page, the status and both
    timestamps of the book as they were, whatever else it sets (a new
    [total_pages] included); the update that sets no field at all changes
    [updated_at] only. *)
Theorem update_book_without_progress
    (db : Session) (book_id : Z) (b : Book.t) (u : BookUpdate.t)
    (utcnow : datetime) :
  db !! book_id = Some b →
  BookUpdate.current_page u = None →
  BookUpdate.status u = None ∨ BookUpdate.status u = Some (Book.status b) →
  ∃ b',
    crud.update_book db book_id u utcnow = (<[book_id := b']> db, Some b')
    ∧ Book.current_page b' = Book.current_page b
    ∧ Book.status b' = Book.status b
    ∧ Book.started_at b' = Book.started_at b
    ∧ Book.completed_at b' = Book.completed_at b
    ∧ (u = BookUpdate.empty → b' = Book.set_updated_at utcnow b).
Proof.
  intros Hb Hpage Hstatus.
  eexists. split; [exact (update_book_found db book_id b u utcnow Hb)|].
  assert (Hsame : crud.handle_current_page_changes u utcnow
                    (crud.handle_status_changes u utcnow b) = b).
  { unfold crud.handle_current_page_changes, crud.handle_status_changes.
    rewrite Hpage. destruct Hstatus as [-> | ->]; [reflexivity|].
    rewrite !andb_negb_r. reflexivity. }
  rewrite Hsame. cbn. fields. rewrite Hpage. cbn.
  repeat split; try reflexivity.
  - destruct Hstatus as [-> | ->]; reflexivity.
  - intros ->. reflexivity.
Qed.

Lemma update_book_without_progress_witness :
  sample_db !! 1 = Some sample_book
  ∧ BookUpdate.current_page (status_and_title in_progress "Dune II") = None
  ∧ BookUpdate.status (status_and_title in_progress "Dune II")
    = Some (Book.status sample_book)
  ∧ ∃ b',
      crud.update_book sample_db 1 (status_and_title in_progress "Dune II") 9
      = (<[1 := b']> sample_db, Some b')
      ∧ Book.current_page b' = Book.current_page sample_book
      ∧ Book.status b' = Book.status sample_book
      ∧ Book.started_at b' = Book.started_at sample_book
      ∧ Book.completed_at b' = Book.completed_at sample_book
      ∧ (status_and_title in_progress "Dune II" = BookUpdate.empty →
         b' = Book.set_updated_at 9 sample_book).
Proof.
  split; [reflexivity|]. split; [reflexivity|]. split; [reflexivity|].
  apply (update_book_without_progress sample_db 1 sample_book
           (status_and_title in_progress "Dune II") 9);
    [reflexivity | reflexivity | right; reflexivity].
Defined.

(** X11.  [update_book] never clears a timestamp and never touches the id
    or [created_at]: a [started_at] that was set keeps its value, a
    [completed_at] that was set stays set, and [updated_at] becomes the
    clock reading. *)
Theorem update_book_never_clears
    (db : Session) (book_id : Z) (b b' : Book.t) (u : BookUpdate.t)
    (utcnow : datetime) :
  db !! book_id = Some b →
  (crud.update_book db book_id u utcnow).2 = Some b' →
  Book.id b' = Book.id b
  ∧ Book.created_at b' = Book.created_at b
  ∧ Book.updated_at b' = utcnow
  ∧ (∀ t, Book.started_at b = Some t → Book.started_at b' = Some t)
  ∧ (is_Some (Book.completed_at b) → is_Some (Book.completed_at b')).
Proof.
  intros Hb Hrun.
  rewrite (update_book_found db book_id b u utcnow Hb) in Hrun.
  cbn [snd] in Hrun. injection Hrun as <-. cbn. fields.
  unfold crud.handle_current_page_changes, crud.handle_status_changes.
  destruct b as [? ? ? ? ? ? ? ? ? ? ? started finished ? ?]. cbn.
  repeat split; try (intros t Ht; subst started);
    try (intros [t Ht]; subst finished);
    repeat case_match; cbn in *; try discriminate; eauto.
Qed.

Lemma update_book_never_clears_witness :
  sample_completed_db !! 1 = Some sample_completed
  ∧ (crud.update_book sample_completed_db 1 (only_current_page 0) 9).2
    = Some (Book.mk 1 "Dune" "Herbert" 100 0 not_started None None None None
              false (Some 5) (Some 7) 1 9)
  ∧ Book.started_at
      (Book.mk 1 "Dune" "Herbert" 100 0 not_started None None None None
         false (Some 5) (Some 7) 1 9) = Some 5.
Proof.
  split; [reflexivity|]. split; [reflexivity|].
  destruct (update_book_never_clears sample_completed_db 1 sample_completed
              (Book.mk 1 "Dune" "Herbert" 100 0 not_started None None None
                 None false (Some 5) (Some 7) 1 9)
              (only_current_page 0) 9)
    as (_ & _ & _ & Hstarted & _); [reflexivity | reflexivity |].
  apply Hstarted. reflexivity.
Defined.

(** X12.  An update whose [status] is [in_progress], on a book with another
    status, sets [started_at] to the clock reading if it was unset and
    keeps it otherwise; it leaves [completed_at], and it leaves the page
    unless the update names one. *)
Theorem update_book_to_in_progress
    (db : Session) (book_id : Z) (b : Book.t) (u : BookUpdate.t)
    (utcnow : datetime) :
  db !! book_id = Some b →
  BookUpdate.status u = Some in_progress →
  Book.status b ≠ in_progress →
  ∃ b',
    crud.update_book db book_id u utcnow = (<[book_id := b']> db, Some b')
    ∧ Book.status b' = in_progress
    ∧ Book.started_at b' = Some (default utcnow (Book.started_at b))
    ∧ Book.completed_at b' = Book.completed_at b
    ∧ Book.current_page b'
      = default (Book.current_page b) (BookUpdate.current_page u).
Proof.
  intros Hb Hstatus Hne.
  eexists. split; [exact (update_book_found db book_id b u utcnow Hb)|].
  apply String.eqb_neq in Hne.
  assert (Hstep : crud.handle_current_page_changes u utcnow
                    (crud.handle_status_changes u utcnow b)
                  = Book.set_started_at
                      (Some (default utcnow (Book.started_at b))) b).
  { unfold crud.handle_current_page_changes, crud.handle_status_changes.
    rewrite Hstatus. cbn. rewrite Hne. cbn.
    destruct b as [? ? ? ? ? ? ? ? ? ? ? [started|] ? ? ?]; cbn;
      destruct (BookUpdate.current_page u); cbn;
      rewrite ?andb_false_r; repeat case_match; reflexivity. }
  cbn. fields. rewrite Hstep, Hstatus. cbn. auto.
Qed.

Lemma update_book_to_in_progress_witness :
  sample_completed_db !! 1 = Some sample_completed
  ∧ BookUpdate.status (only_status in_progress) = Some in_progress
  ∧ Book.status sample_completed ≠ in_progress
  ∧ ∃ b',
      crud.update_book sample_completed_db 1 (only_status in_progress) 9
      = (<[1 := b']> sample_completed_db, Some b')
      ∧ Book.status b' = in_progress
      ∧ Book.started_at b'
        = Some (default 9 (Book.started_at sample_completed))
      ∧ Book.completed_at b' = Book.completed_at sample_completed
      ∧ Book.current_page b'
        = default (Book.current_page sample_completed)
            (BookUpdate.current_page (only_status in_progress)).
Proof.
  split; [reflexivity|]. split; [reflexivity|]. split; [discriminate|].
  apply (update_book_to_in_progress sample_completed_db 1 sample_completed
           (only_status in_progress) 9);
    [reflexivity | reflexivity | discriminate].
Defined.

(** X13.  When an update names both [status] and [current_page], both are
    stored as given, with no derivation of one from the other, and
    [total_pages] is the one of the update if it names one. *)
Theorem update_book_status_and_page_as_given
    (db : Session) (book_id : Z) (b : Book.t) (u : BookUpdate.t)
    (s : string) (p : Z) (utcnow : datetime) :
  db !! book_id = Some b →
  BookUpdate.status u = Some s →
  BookUpdate.current_page u = Some p →
  ∃ b',
    crud.update_book db book_id u utcnow = (<[book_id := b']> db, Some b')
    ∧ Book.status b' = s
    ∧ Book.current_page b' = p
    ∧ Book.total_pages b'
      = default (Book.total_pages b) (BookUpdate.total_pages u).
Proof.
  intros Hb Hstatus Hpage.
  eexists. split; [exact (update_book_found db book_id b u utcnow Hb)|].
  destruct (handle_changes_frame u utcnow b) as (_ & Htotal & _).
  cbn. fields. rewrite Hstatus, Hpage, Htotal. auto.
Qed.

Lemma update_book_status_and_page_as_given_witness :
  sample_db !! 1 = Some sample_book
  ∧ BookUpdate.status (status_and_current_page not_started 50)
    = Some not_started
  ∧ BookUpdate.current_page (status_and_current_page not_started 50)
    = Some 50
  ∧ ∃ b',
      crud.update_book sample_db 1 (status_and_current_page not_started 50) 9
      = (<[1 := b']> sample_db, Some b')
      ∧ Book.status b' = not_started
      ∧ Book.current_page b' = 50
      ∧ Book.total_pages b'
        = default (Book.total_pages sample_book)
            (BookUpdate.total_pages (status_and_current_page not_started 50)).
Proof.
  split; [reflexivity|]. split; [reflexivity|]. split; [reflexivity|].
  apply (update_book_status_and_page_as_given sample_db 1 sample_book
           (status_and_current_page not_started 50) not_started 50 9);
    reflexivity.
Defined.

Lemma set_status_same (b : Book.t) (v : string) :
  Book.status b = v → Book.set_status v b = b.
Proof. intros <-. destruct b; reflexivity. Qed.

(** On the row that an update has just written, the two derivation blocks
    of the same update find nothing to change. *)
Lemma handle_changes_again (u : BookUpdate.t) (t1 t2 : datetime) (b : Book.t) :
  let b1 :=
    Book.set_updated_at t1
      (crud.update_all_fields u
         (crud.handle_current_page_changes u t1
            (crud.handle_status_changes u t1 b))) in
  crud.handle_current_page_changes u t2 (crud.handle_status_changes u t2 b1)
  = b1.
Proof.
  intros b1.
  assert (Hst : Book.status b1
                = default (Book.status
                             (crud.handle_current_page_changes u t1
                                (crud.handle_status_changes u t1 b)))
                    (BookUpdate.status u))
    by (subst b1; cbn; fields; reflexivity).
  assert (Hsa : Book.started_at b1
                = Book.started_at
                    (crud.handle_current_page_changes u t1
                       (crud.handle_status_changes u t1 b)))
    by (subst b1; cbn; fields; reflexivity).
  assert (Hca : Book.completed_at b1
                = Book.completed_at
                    (crud.handle_current_page_changes u t1
                       (crud.handle_status_changes u t1 b)))
    by (subst b1; cbn; fields; reflexivity).
  assert (Htp : default (Book.total_pages b1) (BookUpdate.total_pages u)
                = default (Book.total_pages b) (BookUpdate.total_pages u)).
  { subst b1. cbn. fields.
    destruct (handle_changes_frame u t1 b) as (_ & -> & _).
    apply default_default. }
  clearbody b1.
  assert (Hfirst : crud.handle_status_changes u t2 b1 = b1).
  { unfold crud.handle_status_changes.
    destruct (BookUpdate.status u) as [s|]; [|reflexivity].
    cbn in Hst. rewrite Hst, andb_negb_r. rewrite Hst, andb_negb_r.
    reflexivity. }
  rewrite Hfirst. unfold crud.handle_current_page_changes at 1.
  destruct (BookUpdate.status u) as [s|] eqn:Hs.
  - destruct (BookUpdate.current_page u); [|reflexivity].
    cbn. rewrite !andb_false_r. reflexivity.
  - destruct (BookUpdate.current_page u) as [p|] eqn:Hp; [|reflexivity].
    rewrite Htp.
    unfold crud.handle_current_page_changes, crud.handle_status_changes
      in Hst, Hsa, Hca.
    rewrite Hs, Hp in Hst, Hsa, Hca. cbn in Hst, Hsa, Hca |- *.
    rewrite !andb_true_r in *.
    destruct (p =? 0).
    { cbn in Hst. apply set_status_same. exact Hst. }
    destruct ((0 <? p) && (p <? default (Book.total_pages b)
                                    (BookUpdate.total_pages u))).
    { destruct (Book.started_at b) eqn:Hstart; cbn in Hst, Hsa;
        rewrite ?Hstart in Hsa; cbn in Hsa;
        rewrite (set_status_same _ _ Hst), Hsa; reflexivity. }
    destruct (default (Book.total_pages b) (BookUpdate.total_pages u) <=? p);
      [|reflexivity].
    destruct (Book.completed_at b) eqn:Hdone; cbn in Hst, Hca;
      rewrite ?Hdone in Hca; cbn in Hca;
      rewrite (set_status_same _ _ Hst), Hca; reflexivity.
Qed.

(** X14.  [update_book] is idempotent up to [updated_at]: applying the same
    update a second time returns, and stores, the book of the first
    application with only [updated_at] replaced by the second clock
    reading.  (For an absent id both calls answer [None].) *)
Theorem update_book_idempotent
    (db : Session) (book_id : Z) (u : BookUpdate.t) (t1 t2 : datetime) :
  let once := crud.update_book db book_id u t1 in
  let twice := crud.update_book once.1 book_id u t2 in
  twice.2 = Book.set_updated_at t2 <$> once.2
  ∧ twice.1 = match once.2 with
              | Some b1 => <[book_id := Book.set_updated_at t2 b1]> once.1
              | None => once.1
              end.
Proof.
  cbv zeta. destruct (db !! book_id) as [b|] eqn:Hb.
  - rewrite (update_book_found db book_id b u t1 Hb). cbn [fst snd].
    rewrite (update_book_found _ book_id _ u t2 (lookup_insert_eq db book_id _)).
    cbn [fst snd fmap option_fmap option_map].
    rewrite handle_changes_again, update_all_fields_again.
    split; reflexivity.
  - crud_lookup Hb. cbn. crud_lookup Hb. split; reflexivity.
Qed.

(** ** ProgressUpdate: more of [update_book_progress] *)

(** X15.  After [update_book_progress] with a page that passed validation,
    on a book with a positive page count, the book is fully reconciled:
    the status is [not_started], [in_progress] or [completed] exactly when
    the stored page is 0, strictly between 0 and the total, or the total;
    [started_at] is set exactly when the page is positive and
    [completed_at] exactly when the page is the total. *)
Theorem update_book_progress_reconciled
    (db : Session) (book_id : Z) (b : Book.t) (p : Z) (utcnow : datetime) :
  db !! book_id = Some b →
  0 < Book.total_pages b →
  0 <= p →
  ∃ b',
    crud.update_book_progress db book_id p utcnow
      = (<[book_id := b']> db, Some b')
    ∧ (Book.status b' = not_started ↔ Book.current_page b' = 0)
    ∧ (Book.status b' = in_progress
       ↔ 0 < Book.current_page b' < Book.total_pages b')
    ∧ (Book.status b' = completed
       ↔ Book.current_page b' = Book.total_pages b')
    ∧ (is_Some (Book.started_at b') ↔ 0 < Book.current_page b')
    ∧ (is_Some (Book.completed_at b')
       ↔ Book.current_page b' = Book.total_pages b').
Proof.
  intros Hb Htotal Hp.
  destruct (update_book_progress_found db book_id utcnow b p Hb)
    as (b' & Hrun & Hpage & Htot & _ & Hzero & Hmid & Hfull).
  exists b'. split; [exact Hrun|].
  rewrite Hpage, Htot.
  destruct status_literals_distinct as (Hns_ip & Hns_c & Hip_c).
  destruct (Z.eq_dec (Z.min p (Book.total_pages b)) 0) as [H0|H0].
  - destruct (Hzero H0) as (Hst & Hsa & Hca). rewrite Hst, Hsa, Hca.
    clear Hzero Hmid Hfull Hst Hsa Hca Hrun Hb.
    repeat split; try (intros [? ?]; discriminate); try congruence;
      try lia; intros; exfalso; lia.
  - destruct (Z_lt_le_dec (Z.min p (Book.total_pages b)) (Book.total_pages b))
      as [Hlt|Hge].
    + destruct (Hmid H0 Hlt) as (Hst & Hsa & Hca). rewrite Hst, Hsa, Hca.
      clear Hzero Hmid Hfull Hst Hsa Hca Hrun Hb.
      repeat split; try (intros [? ?]; discriminate); try congruence;
        try lia; eauto; intros; exfalso; lia.
    + destruct (Hfull H0 Hge) as (Hst & Hsa & Hca). rewrite Hst, Hsa, Hca.
      clear Hzero Hmid Hfull Hst Hsa Hca Hrun Hb.
      repeat split; try (intros [? ?]; discriminate); try congruence;
        try lia; eauto; intros; exfalso; lia.
Qed.

Lemma update_book_progress_reconciled_witness :
  sample_completed_db !! 1 = Some sample_completed
  ∧ 0 < Book.total_pages sample_completed
  ∧ 0 <= 50
  ∧ ∃ b',
      crud.update_book_progress sample_completed_db 1 50 9
        = (<[1 := b']> sample_completed_db, Some b')
      ∧ (Book.status b' = in_progress
         ↔ 0 < Book.current_page b' < Book.total_pages b')
      ∧ (is_Some (Book.completed_at b')
         ↔ Book.current_page b' = Book.total_pages b').
Proof.
  split; [reflexivity|]. split; [simpl; lia|]. split; [lia|].
  destruct (update_book_progress_reconciled sample_completed_db 1
              sample_completed 50 9)
    as (b' & Hrun & _ & Hmid & _ & _ & Hdone);
    [reflexivity | simpl; lia | lia |].
  exists b'. split; [exact Hrun|]. split; [exact Hmid | exact Hdone].
Defined.

(** X16.  The last progress update decides: updating to page [p] and then
    to page [q] gives the same page, status and total as updating to [q]
    at once, and the same timestamps set or unset. *)
Theorem update_book_progress_last_wins
    (db : Session) (book_id : Z) (b : Book.t) (p q : Z) (t1 t2 : datetime) :
  db !! book_id = Some b →
  ∃ b2 bq,
    (crud.update_book_progress
       (crud.update_book_progress db book_id p t1).1 book_id q t2).2
    = Some b2
    ∧ (crud.update_book_progress db book_id q t2).2 = Some bq
    ∧ Book.current_page b2 = Book.current_page bq
    ∧ Book.total_pages b2 = Book.total_pages bq
    ∧ Book.status b2 = Book.status bq
    ∧ (is_Some (Book.started_at b2) ↔ is_Some (Book.started_at bq))
    ∧ (is_Some (Book.completed_at b2) ↔ is_Some (Book.completed_at bq)).
Proof.
  intros Hb.
  destruct (update_book_progress_found db book_id t1 b p Hb)
    as (b1 & Hrun1 & _ & Htot1 & _).
  destruct (update_book_progress_found db book_id t2 b q Hb)
    as (bq & Hrunq & Hpageq & Htotq & _ & Hzeroq & Hmidq & Hfullq).
  rewrite Hrun1. cbn [fst].
  destruct (update_book_progress_found (<[book_id := b1]> db) book_id t2 b1 q
              (lookup_insert_eq db book_id b1))
    as (b2 & Hrun2 & Hpage2 & Htot2 & _ & Hzero2 & Hmid2 & Hfull2).
  rewrite Htot1 in *.
  exists b2, bq. rewrite Hrun2, Hrunq. cbn [snd].
  split; [reflexivity|]. split; [reflexivity|].
  split; [congruence|]. split; [congruence|].
  destruct (Z.eq_dec (Z.min q (Book.total_pages b)) 0) as [H0|H0].
  - destruct (Hzeroq H0) as (-> & -> & ->).
    destruct (Hzero2 H0) as (-> & -> & ->). tauto.
  - destruct (Z_lt_le_dec (Z.min q (Book.total_pages b)) (Book.total_pages b))
      as [Hlt|Hge].
    + destruct (Hmidq H0 Hlt) as (-> & -> & ->).
      destruct (Hmid2 H0 Hlt) as (-> & -> & ->).
      split; [reflexivity|]. split; [split; eauto | tauto].
    + destruct (Hfullq H0 Hge) as (-> & -> & ->).
      destruct (Hfull2 H0 Hge) as (-> & -> & ->).
      split; [reflexivity|]. split; split; eauto.
Qed.

Lemma update_book_progress_last_wins_witness :
  sample_db !! 1 = Some sample_book
  ∧ ∃ b2 bq,
      (crud.update_book_progress
         (crud.update_book_progress sample_db 1 100 8).1 1 40 9).2
      = Some b2
      ∧ (crud.update_book_progress sample_db 1 40 9).2 = Some bq
      ∧ Book.current_page b2 = Book.current_page bq
      ∧ Book.total_pages b2 = Book.total_pages bq
      ∧ Book.status b2 = Book.status bq
      ∧ (is_Some (Book.started_at b2) ↔ is_Some (Book.started_at bq))
      ∧ (is_Some (Book.completed_at b2) ↔ is_Some (Book.completed_at bq)).
Proof.
  split; [reflexivity|].
  apply (update_book_progress_last_wins sample_db 1 sample_book 100 40 8 9).
  reflexivity.
Defined.

(** X17.  After [update_book_progress] on a book with a positive page
    count, [pages_remaining] is the total minus the stored page, and it is
    0 exactly when the status is [completed]. *)
Theorem update_book_progress_pages_remaining
    (db : Session) (book_id : Z) (b b' : Book.t) (p : Z) (utcnow : datetime) :
  db !! book_id = Some b →
  0 < Book.total_pages b →
  (crud.update_book_progress db book_id p utcnow).2 = Some b' →
  Book.pages_remaining b' = Book.total_pages b' - Book.current_page b'
  ∧ (Book.pages_remaining b' = 0 ↔ Book.status b' = completed).
Proof.
  intros Hb Htotal Hrun.
  destruct (update_book_progress_found db book_id utcnow b p Hb)
    as (b1 & Hrun1 & Hpage & Htot & _ & Hzero & Hmid & Hfull).
  rewrite Hrun1 in Hrun. cbn [snd] in Hrun. injection Hrun as <-.
  unfold Book.pages_remaining. rewrite Hpage, Htot.
  destruct status_literals_distinct as (Hns_ip & Hns_c & Hip_c).
  split; [lia|].
  destruct (Z.eq_dec (Z.min p (Book.total_pages b)) 0) as [H0|H0].
  - destruct (Hzero H0) as (Hst & _). rewrite Hst.
    clear Hzero Hmid Hfull Hst Hrun1 Hb. split; [lia | congruence].
  - destruct (Z_lt_le_dec (Z.min p (Book.total_pages b)) (Book.total_pages b))
      as [Hlt|Hge].
    + destruct (Hmid H0 Hlt) as (Hst & _). rewrite Hst.
      clear Hzero Hmid Hfull Hst Hrun1 Hb. split; [lia | congruence].
    + destruct (Hfull H0 Hge) as (Hst & _). rewrite Hst.
      clear Hzero Hmid Hfull Hst Hrun1 Hb. split; [reflexivity | lia].
Qed.

Lemma update_book_progress_pages_remaining_witness :
  sample_db !! 1 = Some sample_book
  ∧ 0 < Book.total_pages sample_book
  ∧ (crud.update_book_progress sample_db 1 40 9).2
    = Some (Book.mk 1 "Dune" "Herbert" 100 40 in_progress None None None
              None false (Some 5) None 1 9)
  ∧ Book.pages_remaining
      (Book.mk 1 "Dune" "Herbert" 100 40 in_progress None None None None
         false (Some 5) None 1 9) = 100 - 40.
Proof.
  split; [reflexivity|]. split; [simpl; lia|]. split; [reflexivity|].
  apply (update_book_progress_pages_remaining sample_db 1 sample_book
           (Book.mk 1 "Dune" "Herbert" 100 40 in_progress None None None
              None false (Some 5) None 1 9) 40 9);
    [reflexivity | simpl; lia | reflexivity].
Defined.

(** X18.  A book that has just been updated at a time later than the
    [updated_at] of every other stored book comes first in the unfiltered
    listing. *)
Theorem updated_book_lists_first
    (ilike : string → string → bool) (order : list Book.t → list Book.t)
    (db : Session) (book_id : Z) (b : Book.t) (p n : Z) (utcnow : datetime) :
  sorts_newest_first order →
  db !! book_id = Some b →
  (∀ j c, db !! j = Some c → j ≠ book_id → Book.updated_at c < utcnow) →
  1 <= n →
  ∃ db' b',
    crud.update_book_progress db book_id p utcnow = (db', Some b')
    ∧ head (crud.get_books ilike order db' 0 n None None) = Some b'.
Proof.
  intros Horder Hb Hnewer Hn.
  destruct (update_book_progress_found db book_id utcnow b p Hb)
    as (b' & Hrun & _ & _ & Hupd & _).
  exists (<[book_id := b']> db), b'. split; [exact Hrun|].
  unfold crud.get_books. cbn [crud.given]. cbv zeta.
  unfold crud.limit, crud.offset.
  change (Z.to_nat 0) with 0%nat. rewrite drop_0.
  destruct (Z.ltb_spec n 0); [lia|].
  destruct (Horder (crud.rows (<[book_id := b']> db))) as [Hperm Hsorted].
  assert (Hin : b' ∈ order (crud.rows (<[book_id := b']> db))).
  { rewrite Hperm. apply elem_of_rows. exists book_id.
    apply lookup_insert_eq. }
  assert (Hrow : ∀ c, c ∈ order (crud.rows (<[book_id := b']> db)) →
                      c = b' ∨ Book.updated_at c < utcnow).
  { intros c Hc. rewrite Hperm in Hc. apply elem_of_rows in Hc as [j Hj].
    destruct (decide (book_id = j)) as [->|Hne].
    - rewrite lookup_insert_eq in Hj. left. congruence.
    - rewrite lookup_insert_ne in Hj by exact Hne. right. eauto. }
  destruct (order (crud.rows (<[book_id := b']> db))) as [|h tl];
    [by apply elem_of_nil in Hin|].
  destruct (Z.to_nat n) as [|m] eqn:Hm; [lia|]. cbn.
  destruct (Hrow h) as [-> | Hold]; [apply list_elem_of_here | reflexivity |].
  apply elem_of_cons in Hin as [-> | Hin]; [reflexivity|].
  apply StronglySorted_cons in Hsorted as [Hall _].
  rewrite Forall_forall in Hall. specialize (Hall b' Hin).
  unfold newest_first in Hall. lia.
Qed.

Lemma updated_book_lists_first_witness :
  sorts_newest_first merge_newest_first
  ∧ sample_shelf !! 1 = Some sample_book
  ∧ (∀ j c, sample_shelf !! j = Some c → j ≠ 1 → Book.updated_at c < 9)
  ∧ 1 <= 10
  ∧ ∃ db' b',
      crud.update_book_progress sample_shelf 1 40 9 = (db', Some b')
      ∧ head (crud.get_books exact_ilike merge_newest_first db' 0 10
                None None) = Some b'.
Proof.
  assert (Hnewer : ∀ j c, sample_shelf !! j = Some c → j ≠ 1 →
                          Book.updated_at c < 9).
  { apply (proj1 (map_Forall_lookup
                    (λ (j : Z) (c : Book.t), j ≠ 1 → Book.updated_at c < 9)
                    sample_shelf)).
    apply (bool_decide_unpack _). vm_compute. exact I. }
  split; [exact merge_newest_first_sorts|]. split; [reflexivity|].
  split; [exact Hnewer|]. split; [lia|].
  apply (updated_book_lists_first exact_ilike merge_newest_first sample_shelf
           1 sample_book 40 10 9 merge_newest_first_sorts);
    [reflexivity | exact Hnewer | lia].
Defined.

(** ** Create and Delete *)

(** X19.  The created book is stored under a key that was free, so every
    other row is untouched and there is one row more; [get_book] on its id
    returns it, and deleting it again restores the session as it was. *)
Theorem create_book_round_trip
    (db : Session) (book : BookCreate.t) (now utcnow : datetime) :
  let r := crud.create_book db book now utcnow in
  db !! Book.id r.2 = None
  ∧ crud.get_book r.1 (Book.id r.2) = Some r.2
  ∧ (∀ k, k ≠ Book.id r.2 → r.1 !! k = db !! k)
  ∧ size r.1 = S (size db)
  ∧ crud.delete_book r.1 (Book.id r.2) = (db, true).
Proof.
  intros r.
  destruct (create_book_fields db book now utcnow) as (Hdb & Hid & _).
  fold r in Hdb, Hid. clearbody r.
  pose proof (next_id_fresh db) as Hfresh. rewrite <- Hid in Hfresh.
  unfold crud.delete_book, crud.get_book. rewrite Hdb.
  rewrite lookup_insert_eq.
  split; [exact Hfresh|]. split; [reflexivity|].
  split; [intros k Hk; apply lookup_insert_ne; congruence|].
  split; [apply map_size_insert_None; exact Hfresh|].
  rewrite delete_insert_id by exact Hfresh. reflexivity.
Qed.

(** X20.  A body that passes validation with status [completed] creates a
    book whose page is forced to [total_pages], whatever page the body
    names, with [completed_at] set to the clock reading and no
    [started_at]; with status [in_progress] the page of the body is kept,
    [started_at] is the clock reading and [completed_at] is unset. *)
Theorem create_book_by_status
    (db : Session) (body : BookCreate.payload) (book : BookCreate.t)
    (now utcnow : datetime) :
  BookCreate.model_validate body = Some book →
  BookCreate.p_status body = Some completed
  ∨ BookCreate.p_status body = Some in_progress →
  ∃ db' b',
    main.create_book db body now utcnow = (db', main.Ok b')
    ∧ Book.status b' = default not_started (BookCreate.p_status body)
    ∧ (Book.status b' = completed →
         Book.current_page b' = Book.total_pages b'
         ∧ page_in_range b'
         ∧ fully_read b'
         ∧ Book.completed_at b' = Some now
         ∧ Book.started_at b' = None)
    ∧ (Book.status b' = in_progress →
         Book.current_page b' = default 0 (BookCreate.p_current_page body)
         ∧ Book.started_at b' = Some now
         ∧ Book.completed_at b' = None).
Proof.
  intros Hvalid Hstatus.
  assert (Hbook : BookCreate.status book
                  = default not_started (BookCreate.p_status body)
                  ∧ BookCreate.current_page book
                    = default 0 (BookCreate.p_current_page body)
                  ∧ 0 < BookCreate.total_pages book).
  { unfold BookCreate.model_validate in Hvalid.
    destruct (BookCreate.valid _) eqn:Hok; [|discriminate Hvalid].
    apply BookCreate_valid_fields in Hok as (Hpos & _).
    injection Hvalid as <-. auto. }
  destruct Hbook as (Hst & Hcp & Hpos).
  destruct (create_book_fields db book now utcnow)
    as (_ & _ & Hstatus' & Htotal & Hstart & Hnostart & Hdone & Hnotdone).
  destruct status_literals_distinct as (_ & _ & Hip_c).
  exists (crud.create_book db book now utcnow).1,
         (crud.create_book db book now utcnow).2.
  split; [unfold main.create_book; rewrite Hvalid; reflexivity|].
  split; [congruence|].
  rewrite Hstatus'. split; intros Hs.
  - destruct (Hdone Hs) as [Hca Hpage].
    split; [congruence|]. split; [unfold page_in_range; lia|].
    split; [unfold fully_read, Book.pages_remaining; lia|].
    split; [exact Hca|]. apply Hnostart. congruence.
  - destruct Hnotdone as [Hca Hpage]; [congruence|].
    split; [congruence|]. split; [apply Hstart; exact Hs | exact Hca].
Qed.

Lemma create_book_by_status_witness :
  BookCreate.model_validate
    (BookCreate.mk_payload "Emma" "Austen" 200 (Some 50) (Some completed)
       None None None None None)
  = Some (BookCreate.mk "Emma" "Austen" 200 50 completed None None None
            None false)
  ∧ ∃ db' b',
      main.create_book sample_db
        (BookCreate.mk_payload "Emma" "Austen" 200 (Some 50)
           (Some completed) None None None None None) 8 9
      = (db', main.Ok b')
      ∧ Book.status b' = completed
      ∧ Book.current_page b' = Book.total_pages b'.
Proof.
  split; [reflexivity|].
  destruct (create_book_by_status sample_db
              (BookCreate.mk_payload "Emma" "Austen" 200 (Some 50)
                 (Some completed) None None None None None)
              (BookCreate.mk "Emma" "Austen" 200 50 completed None None None
                 None false) 8 9)
    as (db' & b' & Hrun & Hst & Hdone & _);
    [reflexivity | left; reflexivity |].
  exists db', b'. split; [exact Hrun|]. split; [exact Hst|].
  apply Hdone. exact Hst.
Defined.

(** X21.  After [delete_book] the id names no row: [get_book] answers
    [None], and a second [delete_book] answers [False] and changes
    nothing, whether or not the first one found a row. *)
Theorem delete_book_twice (db : Session) (book_id : Z) :
  let r := crud.delete_book db book_id in
  crud.get_book r.1 book_id = None
  ∧ crud.delete_book r.1 book_id = (r.1, false)
  ∧ (r.2 = true ↔ is_Some (db !! book_id))
  ∧ (r.2 = false → r.1 = db).
Proof.
  unfold crud.delete_book, crud.get_book.
  destruct (db !! book_id) as [b|] eqn:Hb; cbn.
  - rewrite lookup_delete_eq. repeat split; eauto; discriminate.
  - rewrite Hb. repeat split; try discriminate. intros [? ?]. discriminate.
Qed.

(** ** Requests *)

(** X22.  A request that is answered with an error (404 or 422) leaves the
    session exactly as it was: validation and the lookup of the id come
    before any write. *)
Theorem errors_leave_session
    (db : Session) (req : request) (utcnow : datetime) :
  400 <= serve_status db req utcnow →
  serve db req utcnow = db.
Proof.
  destruct req as [body now | k u | k p | k]; cbn.
  - unfold main.create_book.
    destruct (BookCreate.model_validate body); cbn; [lia | reflexivity].
  - unfold main.update_book.
    destruct (BookUpdate.valid u); [|reflexivity].
    destruct (db !! k) as [b|] eqn:Hb.
    + rewrite (update_book_found db k b u utcnow Hb). cbn. lia.
    + crud_lookup Hb. reflexivity.
  - unfold main.update_book_progress.
    destruct (ProgressUpdate.valid p); [|reflexivity].
    destruct (db !! k) as [b|] eqn:Hb.
    + destruct (update_book_progress_found db k utcnow b p Hb)
        as (b' & -> & _). cbn. lia.
    + crud_lookup Hb. reflexivity.
  - unfold main.delete_book, crud.delete_book, crud.get_book.
    destruct (db !! k); cbn; [lia | reflexivity].
Qed.

Lemma errors_leave_session_witness :
  400 <= serve_status sample_db (PatchProgress 1 (-5)) 9
  ∧ serve sample_db (PatchProgress 1 (-5)) 9 = sample_db.
Proof.
  assert (H : 400 <= serve_status sample_db (PatchProgress 1 (-5)) 9)
    by (vm_compute; discriminate).
  split; [exact H|].
  exact (errors_leave_session sample_db (PatchProgress 1 (-5)) 9 H).
Defined.

(** X23.  A request writes at most one row, the one under its target (the
    id it names, or the next free key for a new book): every other row is
    as it was. *)
Theorem serve_frame
    (db : Session) (req : request) (utcnow : datetime) (k : Z) :
  k ≠ target db req →
  serve db req utcnow !! k = db !! k.
Proof.
  intros Hk. destruct req as [body now | j u | j p | j]; cbn in Hk |- *.
  - unfold main.create_book.
    destruct (BookCreate.model_validate body) as [book|]; [|reflexivity].
    cbn [fst].
    destruct (create_book_fields db book now utcnow) as (-> & Hid & _).
    apply lookup_insert_ne. congruence.
  - unfold main.update_book.
    destruct (BookUpdate.valid u); [|reflexivity].
    destruct (db !! j) as [b|] eqn:Hb.
    + rewrite (update_book_found db j b u utcnow Hb). cbn.
      apply lookup_insert_ne. congruence.
    + crud_lookup Hb. reflexivity.
  - unfold main.update_book_progress.
    destruct (ProgressUpdate.valid p); [|reflexivity].
    destruct (db !! j) as [b|] eqn:Hb.
    + destruct (update_book_progress_found db j utcnow b p Hb)
        as (b' & -> & _). cbn. apply lookup_insert_ne. congruence.
    + crud_lookup Hb. reflexivity.
  - unfold main.delete_book, crud.delete_book, crud.get_book.
    destruct (db !! j); cbn; [|reflexivity].
    apply lookup_delete_ne. congruence.
Qed.

Lemma serve_frame_witness :
  2 ≠ target sample_shelf (PatchProgress 1 40)
  ∧ serve sample_shelf (PatchProgress 1 40) 9 !! 2 = sample_shelf !! 2.
Proof.
  split; [discriminate|].
  apply (serve_frame sample_shelf (PatchProgress 1 40) 9 2). discriminate.
Defined.

(** X24.  The number of stored books changes only with a created book
    (answer 201: one more) and a deleted book (answer 204: one less);
    a request answered in any other way leaves it as it was. *)
Theorem serve_size (db : Session) (req : request) (utcnow : datetime) :
  let code := serve_status db req utcnow in
  Z.of_nat (size (serve db req utcnow))
  = Z.of_nat (size db)
    + (if code =? 201 then 1 else if code =? 204 then -1 else 0).
Proof.
  destruct req as [body now | k u | k p | k]; cbv zeta;
    unfold serve, serve_status.
  - unfold main.create_book.
    destruct (BookCreate.model_validate body) as [book|]; cbn [fst snd];
      [|cbn; lia].
    destruct (create_book_fields db book now utcnow) as (-> & Hid & _).
    rewrite map_size_insert_None
      by (rewrite Hid; apply next_id_fresh).
    cbn. lia.
  - unfold main.update_book.
    destruct (BookUpdate.valid u); [|cbn; lia].
    destruct (db !! k) as [b|] eqn:Hb.
    + rewrite (update_book_found db k b u utcnow Hb). cbn.
      rewrite map_size_insert_Some by eauto. lia.
    + crud_lookup Hb. cbn. lia.
  - unfold main.update_book_progress.
    destruct (ProgressUpdate.valid p); [|cbn; lia].
    destruct (db !! k) as [b|] eqn:Hb.
    + destruct (update_book_progress_found db k utcnow b p Hb)
        as (b' & -> & _). cbn.
      rewrite map_size_insert_Some by eauto. lia.
    + crud_lookup Hb. cbn. lia.
  - unfold main.delete_book, crud.delete_book, crud.get_book.
    destruct (db !! k) as [b|] eqn:Hb; cbn; [|lia].
    pose proof (map_size_delete_Some k db (ltac:(eauto))) as Hsize.
    assert (size db ≠ 0%nat)
      by (intros H0; apply map_size_empty_inv in H0; subst db;
          rewrite lookup_empty in Hb; discriminate).
    lia.
Qed.

(** The field constraints of [BookBase], one by one. *)
Lemma BookResponse_valid_iff (b : Book.t) :
  BookResponse.valid b = true ↔
    length_between 1 255 (Book.title b) = true
    ∧ length_between 1 255 (Book.author b) = true
    ∧ 0 < Book.total_pages b
    ∧ 0 <= Book.current_page b
    ∧ validate_status (Book.status b) = true
    ∧ opt_ok (length_between 0 500) (Book.cover_url b) = true
    ∧ opt_ok (length_between 0 100) (Book.genre b) = true
    ∧ opt_ok rating_ok (Book.rating b) = true.
Proof.
  unfold BookResponse.valid.
  rewrite !andb_true_iff, Z.ltb_lt, Z.leb_le. tauto.
Qed.

Lemma BookCreate_valid_iff (m : BookCreate.t) :
  BookCreate.valid m = true ↔
    length_between 1 255 (BookCreate.title m) = true
    ∧ length_between 1 255 (BookCreate.author m) = true
    ∧ 0 < BookCreate.total_pages m
    ∧ 0 <= BookCreate.current_page m
    ∧ validate_status (BookCreate.status m) = true
    ∧ opt_ok (length_between 0 500) (BookCreate.cover_url m) = true
    ∧ opt_ok (length_between 0 100) (BookCreate.genre m) = true
    ∧ opt_ok rating_ok (BookCreate.rating m) = true.
Proof.
  unfold BookCreate.valid.
  rewrite !andb_true_iff, Z.ltb_lt, Z.leb_le. tauto.
Qed.

Lemma BookUpdate_valid_iff (m : BookUpdate.t) :
  BookUpdate.valid m = true ↔
    opt_ok (length_between 1 255) (BookUpdate.title m) = true
    ∧ opt_ok (length_between 1 255) (BookUpdate.author m) = true
    ∧ opt_ok (Z.ltb 0) (BookUpdate.total_pages m) = true
    ∧ opt_ok (Z.leb 0) (BookUpdate.current_page m) = true
    ∧ opt_ok validate_status (BookUpdate.status m) = true
    ∧ opt_ok (length_between 0 500) (BookUpdate.cover_url m) = true
    ∧ opt_ok (length_between 0 100) (BookUpdate.genre m) = true
    ∧ opt_ok rating_ok (BookUpdate.rating m) = true.
Proof. unfold BookUpdate.valid. rewrite !andb_true_iff. tauto. Qed.

(** A constraint that holds of the old value and of the value of the
    update holds of the value that is stored. *)
Lemma opt_ok_default {A : Type} (P : A → bool) (x : A) (o : option A) :
  P x = true → opt_ok P o = true → P (default x o) = true.
Proof. destruct o; simpl; auto. Qed.

Lemma opt_ok_default_Some {A : Type} (P : A → bool) (x : option A)
    (o : option A) :
  opt_ok P x = true → opt_ok P o = true →
  opt_ok P (default x (Some <$> o)) = true.
Proof. destruct o; simpl; auto. Qed.

Lemma create_book_valid
    (db : Session) (book : BookCreate.t) (now utcnow : datetime) :
  BookCreate.valid book = true →
  BookResponse.valid (crud.create_book db book now utcnow).2 = true.
Proof.
  rewrite BookCreate_valid_iff, BookResponse_valid_iff.
  intros (Htitle & Hauthor & Htotal & Hpage & Hstatus & Hcover & Hgenre & Hrating).
  unfold crud.create_book. cbn.
  destruct (BookCreate.status book =? in_progress)%string;
    cbn; destruct (BookCreate.status book =? completed)%string;
    cbn; repeat split; try assumption; lia.
Qed.

Lemma update_book_valid (u : BookUpdate.t) (utcnow : datetime) (b : Book.t) :
  BookUpdate.valid u = true →
  BookResponse.valid b = true →
  BookResponse.valid
    (Book.set_updated_at utcnow
       (crud.update_all_fields u
          (crud.handle_current_page_changes u utcnow
             (crud.handle_status_changes u utcnow b)))) = true.
Proof.
  rewrite BookUpdate_valid_iff, !BookResponse_valid_iff.
  intros (Utitle & Uauthor & Utotal & Upage & Ustatus & Ucover & Ugenre & Urating)
         (Htitle & Hauthor & Htotal & Hpage & Hstatus & Hcover & Hgenre & Hrating).
  destruct (handle_changes_frame u utcnow b) as (_ & Htot' & Hst').
  assert (Hpage' : 0 <= Book.current_page
                          (crud.handle_current_page_changes u utcnow
                             (crud.handle_status_changes u utcnow b))).
  { unfold crud.handle_current_page_changes, crud.handle_status_changes.
    repeat case_match; cbn; lia. }
  destruct (handle_changes_writes u utcnow b)
    as (pg & st & sa & ca & Hwrites).
  cbn. fields. rewrite Htot'.
  rewrite Hwrites in Hpage', Hst' |- *. cbn in Hpage', Hst' |- *.
  repeat split.
  - apply opt_ok_default; assumption.
  - apply opt_ok_default; assumption.
  - destruct (BookUpdate.total_pages u); cbn in *; [apply Z.ltb_lt|]; assumption.
  - destruct (BookUpdate.current_page u); cbn in *; [apply Z.leb_le|]; assumption.
  - destruct (BookUpdate.status u); cbn in *; auto.
  - apply opt_ok_default_Some; assumption.
  - apply opt_ok_default_Some; assumption.
  - apply opt_ok_default_Some; assumption.
Qed.

Lemma update_book_progress_valid
    (db : Session) (book_id : Z) (b b' : Book.t) (p : Z) (utcnow : datetime) :
  db !! book_id = Some b →
  0 <= p →
  BookResponse.valid b = true →
  (crud.update_book_progress db book_id p utcnow).2 = Some b' →
  BookResponse.valid b' = true.
Proof.
  rewrite !BookResponse_valid_iff.
  intros Hb Hp (Htitle & Hauthor & Htotal & Hpage & Hstatus & Hcover & Hgenre & Hrating).
  crud_lookup Hb. cbn [snd]. intros [= <-].
  repeat case_match; cbn; repeat split; try assumption; try reflexivity; lia.
Qed.

Lemma rows_valid_serve (db : Session) (req : request) (utcnow : datetime) :
  map_Forall (λ _ b, BookResponse.valid b = true) db →
  map_Forall (λ _ b, BookResponse.valid b = true) (serve db req utcnow).
Proof.
  intros Hok. destruct req as [body now | k u | k p | k]; unfold serve.
  - unfold main.create_book, BookCreate.model_validate.
    destruct (BookCreate.valid _) eqn:Hvalid; [|exact Hok].
    cbn [fst].
    match goal with |- context [crud.create_book db ?m now utcnow] =>
      pose proof (create_book_valid db m now utcnow Hvalid) as Hnew;
      destruct (create_book_fields db m now utcnow) as (Hdb & _) end.
    rewrite Hdb. apply map_Forall_insert_2; assumption.
  - unfold main.update_book.
    destruct (BookUpdate.valid u) eqn:Hvalid; [|exact Hok].
    destruct (db !! k) as [b|] eqn:Hb.
    + rewrite (update_book_found db k b u utcnow Hb). cbn [main.or_404 fst].
      apply map_Forall_insert_2; [|exact Hok].
      apply update_book_valid; [exact Hvalid | exact (Hok k b Hb)].
    + crud_lookup Hb. exact Hok.
  - unfold main.update_book_progress, ProgressUpdate.valid.
    destruct (Z.leb_spec 0 p); [|exact Hok]. cbn [andb].
    destruct (negb (p <? 0)); [|exact Hok].
    destruct (db !! k) as [b|] eqn:Hb.
    + destruct (update_book_progress_found db k utcnow b p Hb)
        as (b' & Hrun & _).
      rewrite Hrun. cbn [main.or_404 fst].
      apply map_Forall_insert_2; [|exact Hok].
      apply (update_book_progress_valid db k b b' p utcnow Hb);
        [assumption | exact (Hok k b Hb) | rewrite Hrun; reflexivity].
    + crud_lookup Hb. exact Hok.
  - unfold main.delete_book, crud.delete_book, crud.get_book.
    destruct (db !! k); cbn [fst]; [|exact Hok].
    apply map_Forall_delete. exact Hok.
Qed.

(** For the requests of the embedding, whose bodies set no field to
    [null], every row of a session built from the empty table satisfies
    all the constraints of [BookResponse], the status included. *)
Lemma reachable_rows_valid
    (reqs : list (request * datetime)) (k : Z) (b : Book.t) :
  serve_all ∅ reqs !! k = Some b →
  BookResponse.valid b = true.
Proof.
  assert (Hall : ∀ db,
            map_Forall (λ _ b, BookResponse.valid b = true) db →
            map_Forall (λ _ b, BookResponse.valid b = true)
              (serve_all db reqs)).
  { induction reqs as [|[req utcnow] rest IH]; intros db Hok; [exact Hok|].
    cbn. apply IH, rows_valid_serve, Hok. }
  intros Hk. exact (Hall ∅ (map_Forall_empty _) k b Hk).
Qed.

(** X25.  Every row of a session that requests build from the empty table
    has a title and an author of 1 to 255 characters, [total_pages > 0],
    [current_page >= 0], a [cover_url] and a [genre] within their length
    bounds and a rating within 0 and 5.  (The status is left out: a body
    can set it to [null], which is stored.) *)
Theorem reachable_rows_fields_valid
    (reqs : list (request * datetime)) (k : Z) (b : Book.t) :
  serve_all ∅ reqs !! k = Some b →
  BookResponse.fields_valid b = true.
Proof.
  intros Hk. apply reachable_rows_valid in Hk.
  apply BookResponse_valid_iff in Hk
    as (Htitle & Hauthor & Htotal & Hpage & _ & Hcover & Hgenre & Hrating).
  unfold BookResponse.fields_valid.
  rewrite Htitle, Hauthor, Hcover, Hgenre, Hrating.
  apply Z.ltb_lt in Htotal. apply Z.leb_le in Hpage.
  rewrite Htotal, Hpage. reflexivity.
Qed.

Lemma reachable_rows_fields_valid_witness :
  serve_all ∅ dune_requests !! 1
  = Some (Book.mk 1 "Dune" "Herbert" 500 0 not_started None None None None
            false None None 1 3)
  ∧ BookResponse.fields_valid
      (Book.mk 1 "Dune" "Herbert" 500 0 not_started None None None None
         false None None 1 3) = true.
Proof.
  split; [reflexivity|].
  apply (reachable_rows_fields_valid dune_requests 1). reflexivity.
Defined.

(** X26.  In every session that requests build from the empty table, each
    row sits under its own id, so that [get_book] on an id returns a book
    with that id, and has a positive page count. *)
Theorem reachable_rows_keyed
    (reqs : list (request * datetime)) (k : Z) (b : Book.t) :
  serve_all ∅ reqs !! k = Some b →
  Book.id b = k
  ∧ 0 < Book.total_pages b
  ∧ crud.get_book (serve_all ∅ reqs) (Book.id b) = Some b.
Proof.
  intros Hk.
  destruct (Session_ok_reachable reqs k b Hk) as (Hid & Htotal & _).
  split; [exact Hid|]. split; [exact Htotal|].
  unfold crud.get_book. rewrite Hid. exact Hk.
Qed.

Lemma reachable_rows_keyed_witness :
  serve_all ∅ dune_requests !! 1
  = Some (Book.mk 1 "Dune" "Herbert" 500 0 not_started None None None None
            false None None 1 3)
  ∧ Book.id
      (Book.mk 1 "Dune" "Herbert" 500 0 not_started None None None None
         false None None 1 3) = 1.
Proof.
  split; [reflexivity|].
  apply (reachable_rows_keyed dune_requests 1). reflexivity.
Defined.

(** ** Two paths to the same change *)

(** X29.  The two ways to write notes agree: [update_book] with a body
    that sets only [notes] stores and returns what [update_book_notes]
    does with the same text, for a stored and for an absent id. *)
Theorem update_book_notes_agrees
    (db : Session) (book_id : Z) (text : string) (utcnow : datetime) :
  crud.update_book db book_id (only_notes text) utcnow
  = crud.update_book_notes db book_id text utcnow.
Proof.
  destruct (db !! book_id) as [b|] eqn:Hb.
  - rewrite (update_book_found db book_id b (only_notes text) utcnow Hb),
      (update_book_notes_found db book_id b text utcnow Hb).
    reflexivity.
  - crud_lookup Hb. reflexivity.
Qed.

(** X30.  For a page within [[0, total_pages]] of a book with a positive
    page count, [update_book] with a body that sets only [current_page]
    and [update_book_progress] store the same page and derive the same
    status; they also agree on [started_at] for a page strictly inside the
    range and on [completed_at] for the last page. *)
Theorem update_book_agrees_with_progress
    (db : Session) (book_id : Z) (b : Book.t) (p : Z) (utcnow : datetime) :
  db !! book_id = Some b →
  0 < Book.total_pages b →
  0 <= p <= Book.total_pages b →
  ∃ bu bp,
    (crud.update_book db book_id (only_current_page p) utcnow).2 = Some bu
    ∧ (crud.update_book_progress db book_id p utcnow).2 = Some bp
    ∧ Book.current_page bu = Book.current_page bp
    ∧ Book.status bu = Book.status bp
    ∧ (0 < p < Book.total_pages b → Book.started_at bu = Book.started_at bp)
    ∧ (p = Book.total_pages b → Book.completed_at bu = Book.completed_at bp).
Proof.
  intros Hb Htotal Hp.
  rewrite (update_book_found db book_id b (only_current_page p) utcnow Hb).
  crud_lookup Hb. cbn [snd].
  do 2 eexists. split; [reflexivity|]. split; [reflexivity|].
  rewrite Z.min_l by lia.
  unfold crud.handle_current_page_changes, crud.handle_status_changes.
  destruct b as [? ? ? total ? ? ? ? ? ? ? started finished ? ?].
  cbn in *.
  repeat split; try intros ?; zcases; try lia; cbn;
    destruct started, finished; reflexivity.
Qed.

Lemma update_book_agrees_with_progress_witness :
  sample_db !! 1 = Some sample_book
  ∧ 0 < Book.total_pages sample_book
  ∧ 0 <= 40 <= Book.total_pages sample_book
  ∧ ∃ bu bp,
      (crud.update_book sample_db 1 (only_current_page 40) 9).2 = Some bu
      ∧ (crud.update_book_progress sample_db 1 40 9).2 = Some bp
      ∧ Book.current_page bu = Book.current_page bp
      ∧ Book.status bu = Book.status bp
      ∧ (0 < 40 < Book.total_pages sample_book →
         Book.started_at bu = Book.started_at bp)
      ∧ (40 = Book.total_pages sample_book →
         Book.completed_at bu = Book.completed_at bp).
Proof.
  split; [reflexivity|]. split; [simpl; lia|]. split; [simpl; lia|].
  apply (update_book_agrees_with_progress sample_db 1 sample_book 40 9);
    [reflexivity | simpl; lia | simpl; lia].
Defined.
